(** * External-resource controllers of stack-gcp: CloudSQL instance and Network

    A shallow embedding of the two managed-resource controllers
    ([pkg/controller/database/cloudsql.go] and the compute network
    controller) together with the properties of their Observe / Create /
    Update / Delete cycle.

    Go values are modelled as follows.
    - [string] is [String.string]; [[]byte] is [list Byte.byte], with the
      conversions [[]byte(s)] and [string(b)] written out.
    - [map[string][]byte] is a [gmap string (list byte)]; a nil map reads
      like the empty map and is modelled by it.
    - [error] is the inductive [error]; a possibly nil error is
      [option error].
    - A method that mutates the managed resource through its pointer returns
      the resource after the call; so does the write of the record to the
      API server, which decodes the server's reply into the object it was
      given.
    - Calls to the Kubernetes API, to the provider API and to the source of
      random bytes go through an abstract world [W]; every call is appended
      to a log, so that "no request is submitted" is a statement about the
      log. *)

From Stdlib Require Import ZArith Strings.Ascii Strings.Byte.
From stdpp Require Import gmap strings list fin_maps.

Local Open Scope Z_scope.

(** ** Byte strings *)

Abbreviation bytes := (list byte).

(** [[]byte(s)] *)
Definition bytes_of (s : string) : bytes := String.list_byte_of_string s.
(** [string(b)] *)
Definition string_of (b : bytes) : string := String.string_of_list_byte b.
(** [len(b)] for a byte slice, [len(s)] for a string. *)
Definition len (b : bytes) : Z := Z.of_nat (length b).
Definition slen (s : string) : Z := Z.of_nat (String.length s).

(** ** Errors *)

(** The error values the controllers build or inspect:
    [errors.New], [errors.Wrap] (with a non-nil cause), [*googleapi.Error]
    and the API server's [*StatusError]. *)
Inductive error : Type :=
| ErrNew (msg : string)
| ErrWrap (cause : error) (msg : string)
| GoogleapiError (Code : Z) (Message : string)
| StatusError (Reason : string) (Message : string).

Global Instance error_eq_dec : EqDecision error.
Proof. solve_decision. Defined.

(** [errors.Wrap(err, msg)]: nil stays nil. *)
Definition Wrap (err : option error) (msg : string) : option error :=
  match err with
  | None => None
  | Some e => Some (ErrWrap e msg)
  end.

(** [resource.Ignore(is, err)]: nil when [is(err)], [err] otherwise. *)
Definition Ignore (is_ : option error -> bool) (err : option error) : option error :=
  if is_ err then None else err.

(** [kerrors.IsNotFound]: the reason of a status error is [NotFound]. *)
Definition kerrors_IsNotFound (err : option error) : bool :=
  match err with
  | Some (StatusError r _) => bool_decide (r = "NotFound"%string)
  | _ => false
  end.

(** [resource.IgnoreNotFound(err)] *)
Definition IgnoreNotFound (err : option error) : option error :=
  Ignore kerrors_IsNotFound err.

Definition StatusNotFound : Z := 404.

(** ** Error strings of the two controllers

    Both packages declare an [errNewClient]; the one of the database
    package is [errNewSqladmin] here, the one of the compute package
    [errNewCompute]. *)

Module Msg.
Local Open Scope string_scope.
Definition errNotCloudsql := "managed resource is not a CloudsqlInstance CR".
Definition errProviderNotRetrieved := "provider could not be retrieved".
Definition errProviderSecretNotRetrieved := "secret referred in provider could not be retrieved".
Definition errManagedUpdateFailed := "cannot update CloudsqlInstance CR".
Definition errConnectionNotRetrieved := "cannot get connection details".
Definition errNewSqladmin := "cannot create new Sqladmin Service".
Definition errInsertFailed := "cannot insert new Cloudsql instance".
Definition errDeleteFailed := "cannot delete the Cloudsql instance".
Definition errPatchFailed := "cannot patch the Cloudsql instance".
Definition errGetFailed := "cannot get the Cloudsql instance".
Definition errUpdateRootFailed := "cannot update root user credentials".
Definition errNewCompute := "cannot create new Compute Service".
Definition errNotNetwork := "managed resource is not a Network resource".
Definition errNameNotGiven := "name for networkExternal resource is not provided".
End Msg.

(** ** Kubernetes and crossplane-runtime types *)

Record NamespacedName := { nn_Namespace : string; nn_Name : string }.
Record ObjectReference := { ref_Namespace : string; ref_Name : string }.

(** [meta.NamespacedNameOf] *)
Definition NamespacedNameOf (r : ObjectReference) : NamespacedName :=
  {| nn_Namespace := ref_Namespace r; nn_Name := ref_Name r |}.

(** [v1.Secret]: only [Data] is read. *)
Record Secret := { Data : gmap string bytes }.
Definition emptySecret : Secret := {| Data := ∅ |}.

(** [s.Data[k]]: a missing key reads as the nil slice. *)
Definition index (m : gmap string bytes) (k : string) : bytes := default [] (m !! k).

(** The GCP [Provider] object: its namespace, the secret it refers to and
    the project it is bound to. *)
Record Provider := {
  provider_Namespace : string;
  provider_SecretName : string;
  provider_SecretKey : string;
  provider_ProjectID : string
}.

(** Conditions of crossplane-runtime's [ConditionedStatus]. The transition
    time and the message of a condition are not modelled. *)
Inductive ConditionType := TypeReady | TypeSynced.
Inductive ConditionStatus := ConditionTrue | ConditionFalse | ConditionUnknown.
Inductive ConditionReason :=
  ReasonAvailable | ReasonUnavailable | ReasonCreating | ReasonDeleting.

Record Condition := {
  cond_Type : ConditionType;
  cond_Status : ConditionStatus;
  cond_Reason : ConditionReason
}.

Global Instance ConditionType_eq_dec : EqDecision ConditionType.
Proof. solve_decision. Defined.
Global Instance ConditionStatus_eq_dec : EqDecision ConditionStatus.
Proof. solve_decision. Defined.
Global Instance ConditionReason_eq_dec : EqDecision ConditionReason.
Proof. solve_decision. Defined.
Global Instance Condition_eq_dec : EqDecision Condition.
Proof. solve_decision. Defined.

Definition Available : Condition :=
  {| cond_Type := TypeReady; cond_Status := ConditionTrue; cond_Reason := ReasonAvailable |}.
Definition Creating : Condition :=
  {| cond_Type := TypeReady; cond_Status := ConditionFalse; cond_Reason := ReasonCreating |}.
Definition Unavailable : Condition :=
  {| cond_Type := TypeReady; cond_Status := ConditionFalse; cond_Reason := ReasonUnavailable |}.

(** [ConditionedStatus.SetConditions] for one condition: every condition of
    the same type is overwritten, and the condition is appended when the
    status holds none of that type. *)
Definition SetConditions (new : Condition) (cs : list Condition) : list Condition :=
  if existsb (fun c => bool_decide (cond_Type c = cond_Type new)) cs
  then map (fun c => if bool_decide (cond_Type c = cond_Type new) then new else c) cs
  else cs ++ [new].

(** [ConditionedStatus.GetCondition]: the first condition of the type. *)
Definition GetCondition (t : ConditionType) (cs : list Condition) : option Condition :=
  find (fun c => bool_decide (cond_Type c = t)) cs.

Inductive BindingPhase :=
  BindingPhaseUnset | BindingPhaseUnbindable | BindingPhaseUnbound
| BindingPhaseBound | BindingPhaseReleased.

Global Instance BindingPhase_eq_dec : EqDecision BindingPhase.
Proof. solve_decision. Defined.

(** [resource.ExternalObservation], [ExternalCreation] and [ExternalUpdate].
    [ExternalCreation] carries nothing the controllers set. *)
Record ExternalObservation := {
  ResourceExists : bool;
  ResourceUpToDate : bool;
  obs_ConnectionDetails : gmap string bytes
}.
Definition ExternalObservation_zero : ExternalObservation :=
  {| ResourceExists := false; ResourceUpToDate := false; obs_ConnectionDetails := ∅ |}.

Record ExternalUpdate := { upd_ConnectionDetails : gmap string bytes }.
Definition ExternalUpdate_zero : ExternalUpdate := {| upd_ConnectionDetails := ∅ |}.

(** Keys of the connection secret. *)
Module Key.
Local Open Scope string_scope.
(** crossplane-runtime's [ResourceCredentialsSecret...Key]. *)
Definition User := "username".
Definition Password := "password".
Definition Endpoint := "endpoint".
(** Modelled from the spec: the keys [PrivateIPKey] and [PublicIPKey] of
    the database API package, which is not among the sources; the
    persisted state layout names them [privateIP] and [publicIP]. *)
Definition PrivateIP := "privateIP".
Definition PublicIP := "publicIP".
End Key.

(** ** The provider's view of a CloudSQL instance *)

(** Modelled from the spec: the lifecycle phases of [Observation.State],
    whose constants the database API package declares. The spec names the
    provider-defined states "Creating, Runnable/Ready, Suspended,
    Maintenance, Failed, Unknown"; the controller tests for six distinct
    constants, and any other string the provider may report is
    [StateOther]. *)
Inductive InstanceState :=
| StateRunnable | StateCreating | StateCreationFailed
| StateSuspended | StateMaintenance | StateUnknownState
| StateOther (s : string).

(** Modelled from the spec: the type of an [IPMapping], whose constants the
    database API package declares. The spec speaks of "private-type" and
    "public-type" addresses; the controller tests for these two distinct
    constants, and any other string is [OtherIPType]. *)
Inductive IPType := PrivateIPType | PublicIPType | OtherIPType (s : string).

Global Instance IPType_eq_dec : EqDecision IPType.
Proof. solve_decision. Defined.

Record IPMapping := { IPAddress : string; ip_Type : IPType }.

Record CloudsqlInstanceObservation := {
  State : InstanceState;
  IPAddresses : list IPMapping
}.

(** [sqladmin.User]: the fields the controller reads or writes. *)
Record User := { user_Name : string; user_Host : string; user_Password : string }.

(** ** Packages of the repository the controllers import *)

(** The API types the controllers handle without looking inside: the
    parameters of a CloudSQL instance (compared with [reflect.DeepEqual],
    hence with decidable equality), the provider's [sqladmin.DatabaseInstance],
    and the network's spec, status and [compute.Network]. *)
Class Apis := {
  CloudsqlInstanceParameters : Type;
  CloudsqlInstanceParameters_eq_dec :: EqDecision CloudsqlInstanceParameters;
  DatabaseInstance : Type;
  GCPNetworkSpec : Type;
  GCPNetworkStatus : Type;
  ComputeNetwork : Type
}.

Section Resources.
Context `{Apis}.

(** [v1alpha2.CloudsqlInstance] *)
Record CloudsqlInstanceSpec := {
  spec_ProviderReference : ObjectReference;
  spec_WriteConnectionSecretToReference : string;
  ForProvider : CloudsqlInstanceParameters
}.

Record CloudsqlInstanceStatus := {
  Conditions : list Condition;
  Phase : BindingPhase;
  AtProvider : CloudsqlInstanceObservation
}.

Record CloudsqlInstance := {
  cr_Namespace : string;
  cr_ExternalName : string;
  Spec : CloudsqlInstanceSpec;
  Status : CloudsqlInstanceStatus
}.

(** [meta.GetExternalName]: the external-name annotation. *)
Definition GetExternalName (cr : CloudsqlInstance) : string := cr_ExternalName cr.

(** Assignments through the pointer [cr]. *)
Definition set_Status (cr : CloudsqlInstance) (s : CloudsqlInstanceStatus) : CloudsqlInstance :=
  {| cr_Namespace := cr_Namespace cr; cr_ExternalName := cr_ExternalName cr;
     Spec := Spec cr; Status := s |}.

Definition set_AtProvider (cr : CloudsqlInstance) (o : CloudsqlInstanceObservation) : CloudsqlInstance :=
  set_Status cr {| Conditions := Conditions (Status cr); Phase := Phase (Status cr);
                   AtProvider := o |}.

Definition set_Conditions (cr : CloudsqlInstance) (cs : list Condition) : CloudsqlInstance :=
  set_Status cr {| Conditions := cs; Phase := Phase (Status cr);
                   AtProvider := AtProvider (Status cr) |}.

Definition SetBindingPhase (cr : CloudsqlInstance) (p : BindingPhase) : CloudsqlInstance :=
  set_Status cr {| Conditions := Conditions (Status cr); Phase := p;
                   AtProvider := AtProvider (Status cr) |}.

Definition set_ForProvider (cr : CloudsqlInstance) (p : CloudsqlInstanceParameters) : CloudsqlInstance :=
  {| cr_Namespace := cr_Namespace cr; cr_ExternalName := cr_ExternalName cr;
     Spec := {| spec_ProviderReference := spec_ProviderReference (Spec cr);
                spec_WriteConnectionSecretToReference :=
                  spec_WriteConnectionSecretToReference (Spec cr);
                ForProvider := p |};
     Status := Status cr |}.

(** [resource.IsBound] and [resource.SetBindable] *)
Definition IsBound (cr : CloudsqlInstance) : bool :=
  bool_decide (Phase (Status cr) = BindingPhaseBound).

Definition SetBindable (cr : CloudsqlInstance) : CloudsqlInstance :=
  if IsBound cr then cr else SetBindingPhase cr BindingPhaseUnbound.

(** [v1alpha2.Network]: the provider reference, the embedded
    [GCPNetworkSpec] and the embedded [GCPNetworkStatus]. *)
Record Network := {
  net_ProviderReference : ObjectReference;
  net_GCPNetworkSpec : GCPNetworkSpec;
  net_Conditions : list Condition;
  net_GCPNetworkStatus : GCPNetworkStatus
}.

Definition set_GCPNetworkStatus (cr : Network) (s : GCPNetworkStatus) : Network :=
  {| net_ProviderReference := net_ProviderReference cr;
     net_GCPNetworkSpec := net_GCPNetworkSpec cr;
     net_Conditions := net_Conditions cr;
     net_GCPNetworkStatus := s |}.

(** [resource.Managed]: the interface value handed to the controllers holds
    a CloudSQL instance, a network, or a resource of some other kind. *)
Inductive Managed :=
| MCloudsql (cr : CloudsqlInstance)
| MNetwork (cr : Network)
| MOther (kind : string).

(** The calls a controller makes to its collaborators. *)
Inductive Call :=
| CallKubeGetProvider (n : NamespacedName)
| CallKubeGetSecret (n : NamespacedName)
| CallKubeUpdate (cr : CloudsqlInstance)
| CallNewSqladmin (credentials : bytes)
| CallDbGet (project name : string)
| CallDbInsert (project : string) (instance : DatabaseInstance)
| CallDbPatch (project name : string) (instance : DatabaseInstance)
| CallDbDelete (project name : string)
| CallUserList (project instance : string)
| CallUserUpdate (project instance name host : string) (u : User)
| CallGeneratePassword (n : Z)
| CallProviderCredentials (p : Provider)
| CallNewCompute (credentials : bytes)
| CallNetGet (project name : string)
| CallNetInsert (project : string) (n : ComputeNetwork)
| CallNetPatch (project name : string) (n : ComputeNetwork)
| CallNetDelete (project name : string).

Definition isKubeUpdate (c : Call) : bool :=
  match c with CallKubeUpdate _ => true | _ => false end.
Definition isKubeGetSecret (c : Call) : bool :=
  match c with CallKubeGetSecret _ => true | _ => false end.
Definition isDbPatch (c : Call) : bool :=
  match c with CallDbPatch _ _ _ => true | _ => false end.
Definition isUserUpdate (c : Call) : bool :=
  match c with CallUserUpdate _ _ _ _ _ => true | _ => false end.
Definition isGeneratePassword (c : Call) : bool :=
  match c with CallGeneratePassword _ => true | _ => false end.

End Resources.

(** The functions the controllers import from other packages of the
    repository, as parameters: the CloudSQL client helpers, the error
    predicates of the GCP client package (the database controller imports
    them as [gcp], the network controller as [clients]), [DatabaseUserName]
    and [PasswordLength] of the database API, and the network helpers. *)
Class Clients `{Apis} := {
  PasswordLength : Z;
  DatabaseUserName : CloudsqlInstance -> string;
  GenerateObservation : DatabaseInstance -> CloudsqlInstanceObservation;
  LateInitializeSpec :
    CloudsqlInstanceParameters -> DatabaseInstance -> CloudsqlInstanceParameters;
  GenerateDatabaseInstance : CloudsqlInstanceParameters -> string -> DatabaseInstance;
  gcp_IsErrorNotFound : option error -> bool;
  gcp_IsErrorAlreadyExists : option error -> bool;
  clients_IsErrorNotFound : option error -> bool;
  NetworkName : GCPNetworkSpec -> string;
  GenerateNetwork : GCPNetworkSpec -> ComputeNetwork;
  GenerateGCPNetworkStatus : ComputeNetwork -> GCPNetworkStatus
}.

(** ** The outside world *)

(** A Go call returning [(value, error)] with a nil value on error. *)
Inductive result (A : Type) : Type :=
| Ok (a : A)
| Err (e : error).
Arguments Ok {A} a.
Arguments Err {A} e.

(** The collaborators: the Kubernetes client, the sqladmin and compute
    services, the credential helper and the source of random bytes. Each
    operation answers from the current state of the world and may change
    it. A failed [Get] leaves the object it was to fill empty.

    [kube_Update] is [client.Update(ctx, cr)]: the controller hands over the
    pointer [cr], and the client decodes the API server's reply into that
    object. It returns the record as the call leaves it, together with
    the error; nothing is assumed about how that record relates to the
    one that was sent.

    [rand_Read] is [crypto/rand.Read] on a buffer of the given length: the
    bytes it wrote and its error. *)
Class World (W : Type) `{Apis} := {
  kube_GetProvider : NamespacedName -> W -> result Provider * W;
  kube_GetSecret : NamespacedName -> W -> result Secret * W;
  kube_Update : CloudsqlInstance -> W -> (CloudsqlInstance * option error) * W;
  sqladmin_NewService : bytes -> W -> option error * W;
  db_Get : string -> string -> W -> result DatabaseInstance * W;
  db_Insert : string -> DatabaseInstance -> W -> option error * W;
  db_Patch : string -> string -> DatabaseInstance -> W -> option error * W;
  db_Delete : string -> string -> W -> option error * W;
  user_List : string -> string -> W -> result (list User) * W;
  user_Update : string -> string -> string -> string -> User -> W -> option error * W;
  rand_Read : Z -> W -> (bytes * option error) * W;
  ProviderCredentials : Provider -> W -> result bytes * W;
  compute_NewService : bytes -> W -> option error * W;
  net_Get : string -> string -> W -> result ComputeNetwork * W;
  net_Insert : string -> ComputeNetwork -> W -> option error * W;
  net_Patch : string -> string -> ComputeNetwork -> W -> option error * W;
  net_Delete : string -> string -> W -> option error * W
}.

(** ** The password generator *)

(** The alphabet of [base64.StdEncoding]. *)
Definition encodeStd : string :=
  "ABCDEFGHIJKLMNOPQRSTUVWXYZabcdefghijklmnopqrstuvwxyz0123456789+/".

(** [enc.encode[val >> shift & 0x3F]] *)
Definition sextet (val shift : Z) : Ascii.ascii :=
  default "="%char (String.list_ascii_of_string encodeStd
                      !! Z.to_nat (Z.land (Z.shiftr val shift) 63)).

Definition byte_val (b : byte) : Z := Z.of_N (Byte.to_N b).

(** [base64.StdEncoding.EncodeToString]: three bytes give four characters,
    and a remainder of one or two bytes is padded with [=]. *)
Fixpoint EncodeToString (src : bytes) : string :=
  match src with
  | [] => EmptyString
  | [a] =>
    let val := Z.shiftl (byte_val a) 16 in
    String (sextet val 18) (String (sextet val 12) "=="%string)
  | [a; b] =>
    let val := Z.lor (Z.shiftl (byte_val a) 16) (Z.shiftl (byte_val b) 8) in
    String (sextet val 18) (String (sextet val 12) (String (sextet val 6) "="%string))
  | a :: b :: c :: rest =>
    let val := Z.lor (Z.lor (Z.shiftl (byte_val a) 16) (Z.shiftl (byte_val b) 8))
                     (byte_val c) in
    String (sextet val 18)
      (String (sextet val 12)
         (String (sextet val 6) (String (sextet val 0) (EncodeToString rest))))
  end.

Section Util.
Context `{Apis} {W : Type} `{!World W}.

(** Modelled from the spec: [util.GeneratePassword] of crossplane-runtime,
    which is not among the sources; the spec lists it among the excluded
    collaborators as "a random-password generator with a configurable
    minimum length". The model is the library's function: a buffer of
    [dataLen] zero bytes is handed to [crypto/rand.Read], and when that
    returns no error the buffer is encoded with [base64.StdEncoding]; on an
    error the password is empty. ([make] panics on a negative length,
    which reads as the length 0 here.) *)
Definition GeneratePassword (dataLen : Z) (w : W) : result string * W :=
  let '(written, err, w') := rand_Read dataLen w in
  let randData := resize (Z.to_nat dataLen) x00 written in
  match err with
  | Some e => (Err e, w')
  | None => (Ok (EncodeToString randData), w')
  end.

End Util.

(** ** Computations that call the world *)

Section Effects.
Context `{Apis} {W : Type}.

(** A computation runs from a world and the log of calls made so far. *)
Definition M (A : Type) : Type := W * list Call -> A * (W * list Call).

Definition ret {A} (a : A) : M A := fun s => (a, s).

Definition bind {A B} (m : M A) (k : A -> M B) : M B :=
  fun s => let (a, s') := m s in k a s'.

(** One call: the world answers and the call is logged. *)
Definition call {A} (c : Call) (op : W -> A * W) : M A :=
  fun s => let (a, w') := op (fst s) in (a, (w', snd s ++ [c])).

(** Run a computation from a world with an empty log. *)
Definition run {A} (m : M A) (w : W) : A * (W * list Call) := m (w, []).

End Effects.

Notation "'let*' x ':=' m 'in' k" := (bind m (fun x => k))
  (at level 10, x pattern, m at level 100, k at level 200).

(** ** The CloudSQL instance controller *)

Section Cloudsql.
Context `{Clients} {W : Type} `{!World W}.
Import Msg.

(** The client [Connect] returns: the Kubernetes client and the two
    sqladmin services are the world's, the project is the provider's. *)
Record cloudsqlExternal := { projectID : string }.

(** [cloudsqlConnector.Connect] *)
Definition cloudsqlConnect (mg : Managed) : M (option cloudsqlExternal * option error) :=
  match mg with
  | MCloudsql cr =>
    let n := NamespacedNameOf (spec_ProviderReference (Spec cr)) in
    let* r := call (CallKubeGetProvider n) (kube_GetProvider n) in
    match r with
    | Err err => ret (None, Wrap (Some err) errProviderNotRetrieved)
    | Ok provider =>
      let name := NamespacedNameOf {| ref_Name := provider_SecretName provider;
                                      ref_Namespace := provider_Namespace provider |} in
      let* r := call (CallKubeGetSecret name) (kube_GetSecret name) in
      match r with
      | Err err => ret (None, Wrap (Some err) errProviderSecretNotRetrieved)
      | Ok secret =>
        let credentials := index (Data secret) (provider_SecretKey provider) in
        let* err := call (CallNewSqladmin credentials) (sqladmin_NewService credentials) in
        match err with
        | Some err => ret (None, Wrap (Some err) errNewSqladmin)
        | None => ret (Some {| projectID := provider_ProjectID provider |}, None)
        end
      end
    end
  | _ => ret (None, Some (ErrNew errNotCloudsql))
  end.

(** One round of the loop over [cr.Status.AtProvider.IPAddresses]. *)
Definition addAddress (m : gmap string bytes) (ip : IPMapping) : gmap string bytes :=
  let m :=
    if bool_decide (ip_Type ip = PrivateIPType)
    then <[Key.Endpoint := bytes_of (IPAddress ip)]>
           (<[Key.PrivateIP := bytes_of (IPAddress ip)]> m)
    else m in
  if bool_decide (ip_Type ip = PublicIPType)
  then
    let m := <[Key.PublicIP := bytes_of (IPAddress ip)]> m in
    if bool_decide (len (index m Key.Endpoint) = 0)
    then <[Key.Endpoint := bytes_of (IPAddress ip)]> m
    else m
  else m.

(** [cloudsqlExternal.getConnectionDetails] *)
Definition getConnectionDetails (c : cloudsqlExternal) (cr : CloudsqlInstance)
  : M (gmap string bytes * option error) :=
  let m : gmap string bytes := {[ Key.User := bytes_of (DatabaseUserName cr) ]} in
  let name := {| nn_Name := spec_WriteConnectionSecretToReference (Spec cr);
                 nn_Namespace := cr_Namespace cr |} in
  let* r := call (CallKubeGetSecret name) (kube_GetSecret name) in
  let '(s, err) := match r with
                   | Ok s => (s, None)
                   | Err e => (emptySecret, Some e)
                   end in
  match IgnoreNotFound err with
  | Some _ => ret (∅, err)
  | None =>
    let m :=
      if bool_decide (len (index (Data s) Key.Password) ≠ 0)
      then <[Key.Password := index (Data s) Key.Password]> m
      else m in
    ret (fold_left addAddress (IPAddresses (AtProvider (Status cr))) m, None)
  end.

(** [cloudsqlExternal.updateRootCredentials] *)
Definition updateRootCredentials (c : cloudsqlExternal) (cr : CloudsqlInstance)
  : M (gmap string bytes * option error) :=
  let* r := call (CallUserList (projectID c) (GetExternalName cr))
                 (user_List (projectID c) (GetExternalName cr)) in
  match r with
  | Err err => ret (∅, Some err)
  | Ok users =>
    match find (fun val => bool_decide (user_Name val = DatabaseUserName cr)) users with
    | None =>
      ret (∅, Some (GoogleapiError StatusNotFound
                      ("user: " +:+ DatabaseUserName cr +:+ " is not found")))
    | Some rootUser =>
      let* (conn, err) := getConnectionDetails c cr in
      match err with
      | Some err => ret (∅, Some err)
      | None =>
        let password := string_of (index conn Key.Password) in
        let* r :=
          if bool_decide (slen password = 0)
          then
            let* g := call (CallGeneratePassword PasswordLength)
                           (GeneratePassword PasswordLength) in
            match g with
            | Err err => ret (Err err)
            | Ok password => ret (Ok (password, <[Key.Password := bytes_of password]> conn))
            end
          else ret (Ok (password, conn)) in
        match r with
        | Err err => ret (∅, Some err)
        | Ok (password, conn) =>
          let rootUser := {| user_Name := user_Name rootUser; user_Host := user_Host rootUser;
                             user_Password := password |} in
          let* err := call (CallUserUpdate (projectID c) (GetExternalName cr)
                                           (user_Name rootUser) (user_Host rootUser) rootUser)
                           (user_Update (projectID c) (GetExternalName cr)
                                        (user_Name rootUser) (user_Host rootUser) rootUser) in
          ret (conn, err)
        end
      end
    end
  end.

(** [cloudsqlExternal.Observe]. The result carries the managed resource as
    the call leaves it. *)
Definition cloudsqlObserve (c : cloudsqlExternal) (mg : Managed)
  : M (Managed * ExternalObservation * option error) :=
  match mg with
  | MCloudsql cr =>
    let* r := call (CallDbGet (projectID c) (GetExternalName cr))
                   (db_Get (projectID c) (GetExternalName cr)) in
    match r with
    | Err err =>
      ret (mg, ExternalObservation_zero,
           Wrap (Ignore gcp_IsErrorNotFound (Some err)) errGetFailed)
    | Ok instance =>
      let cr := set_AtProvider cr (GenerateObservation instance) in
      let currentSpec := ForProvider (Spec cr) in
      let cr := set_ForProvider cr (LateInitializeSpec (ForProvider (Spec cr)) instance) in
      let upToDate := bool_decide (currentSpec = ForProvider (Spec cr)) in
      let* (cr, err) := if negb upToDate
                        then call (CallKubeUpdate cr) (kube_Update cr)
                        else ret (cr, None) in
      match err with
      | Some err =>
        ret (MCloudsql cr, ExternalObservation_zero, Wrap (Some err) errManagedUpdateFailed)
      | None =>
        let observation conn :=
          {| ResourceExists := true; ResourceUpToDate := upToDate;
             obs_ConnectionDetails := conn |} in
        match State (AtProvider (Status cr)) with
        | StateRunnable =>
          let cr := set_Conditions cr (SetConditions Available (Conditions (Status cr))) in
          let cr := if negb (IsBound cr) then SetBindable cr else cr in
          let* (conn, err) := getConnectionDetails c cr in
          match err with
          | Some err =>
            ret (MCloudsql cr, ExternalObservation_zero,
                 Wrap (Some err) errConnectionNotRetrieved)
          | None => ret (MCloudsql cr, observation conn, None)
          end
        | StateCreating =>
          let cr := set_Conditions cr (SetConditions Creating (Conditions (Status cr))) in
          ret (MCloudsql cr, observation ∅, None)
        | StateCreationFailed | StateSuspended | StateMaintenance | StateUnknownState =>
          let cr := set_Conditions cr (SetConditions Unavailable (Conditions (Status cr))) in
          ret (MCloudsql cr, observation ∅, None)
        | StateOther _ => ret (MCloudsql cr, observation ∅, None)
        end
      end
    end
  | _ => ret (mg, ExternalObservation_zero, Some (ErrNew errNotCloudsql))
  end.

(** [cloudsqlExternal.Create] *)
Definition cloudsqlCreate (c : cloudsqlExternal) (mg : Managed) : M (Managed * option error) :=
  match mg with
  | MCloudsql cr =>
    let instance := GenerateDatabaseInstance (ForProvider (Spec cr)) (GetExternalName cr) in
    let* err := call (CallDbInsert (projectID c) instance) (db_Insert (projectID c) instance) in
    ret (mg, Wrap (Ignore gcp_IsErrorAlreadyExists err) errInsertFailed)
  | _ => ret (mg, Some (ErrNew errNotCloudsql))
  end.

(** [cloudsqlExternal.Update] *)
Definition cloudsqlUpdate (c : cloudsqlExternal) (mg : Managed)
  : M (Managed * ExternalUpdate * option error) :=
  match mg with
  | MCloudsql cr =>
    let* (conn, err) := updateRootCredentials c cr in
    match err with
    | Some err => ret (mg, ExternalUpdate_zero, Wrap (Some err) errUpdateRootFailed)
    | None =>
      let instance := GenerateDatabaseInstance (ForProvider (Spec cr)) (GetExternalName cr) in
      let* err := call (CallDbPatch (projectID c) (GetExternalName cr) instance)
                       (db_Patch (projectID c) (GetExternalName cr) instance) in
      ret (mg, {| upd_ConnectionDetails := conn |}, Wrap err errPatchFailed)
    end
  | _ => ret (mg, ExternalUpdate_zero, Some (ErrNew errNotCloudsql))
  end.

(** [cloudsqlExternal.Delete] *)
Definition cloudsqlDelete (c : cloudsqlExternal) (mg : Managed) : M (Managed * option error) :=
  match mg with
  | MCloudsql cr =>
    let* err := call (CallDbDelete (projectID c) (GetExternalName cr))
                     (db_Delete (projectID c) (GetExternalName cr)) in
    if gcp_IsErrorNotFound err
    then ret (mg, None)
    else ret (mg, Wrap err errDeleteFailed)
  | _ => ret (mg, Some (ErrNew errNotCloudsql))
  end.

End Cloudsql.

(** ** The network controller *)

Section NetworkController.
Context `{Clients} {W : Type} `{!World W}.
Import Msg.

Record networkExternal := { net_projectID : string }.

(** [%s] of a [types.NamespacedName]: namespace, a slash, name. *)
Definition NamespacedName_String (n : NamespacedName) : string :=
  nn_Namespace n +:+ "/" +:+ nn_Name n.

(** [networkConnector.Connect] *)
Definition networkConnect (mg : Managed) : M (option networkExternal * option error) :=
  match mg with
  | MNetwork cr =>
    if bool_decide (NetworkName (net_GCPNetworkSpec cr) = "")
    then ret (None, Some (ErrNew errNameNotGiven))
    else
      let n := NamespacedNameOf (net_ProviderReference cr) in
      let* r := call (CallKubeGetProvider n) (kube_GetProvider n) in
      match r with
      | Err err =>
        ret (None, Wrap (Some err) ("cannot get provider " +:+ NamespacedName_String n))
      | Ok provider =>
        let* r := call (CallProviderCredentials provider) (ProviderCredentials provider) in
        match r with
        | Err err => ret (None, Some err)
        | Ok gcpCreds =>
          let* err := call (CallNewCompute gcpCreds) (compute_NewService gcpCreds) in
          match err with
          | Some err => ret (None, Wrap (Some err) errNewCompute)
          | None => ret (Some {| net_projectID := provider_ProjectID provider |}, None)
          end
        end
      end
  | _ => ret (None, Some (ErrNew errNotNetwork))
  end.

(** [networkExternal.Observe] *)
Definition networkObserve (c : networkExternal) (mg : Managed)
  : M (Managed * ExternalObservation * option error) :=
  match mg with
  | MNetwork cr =>
    let name := NetworkName (net_GCPNetworkSpec cr) in
    let* r := call (CallNetGet (net_projectID c) name) (net_Get (net_projectID c) name) in
    let err := match r with Ok _ => None | Err e => Some e end in
    if clients_IsErrorNotFound err
    then ret (mg, {| ResourceExists := false; ResourceUpToDate := false;
                     obs_ConnectionDetails := ∅ |}, None)
    else
      match r with
      | Err err => ret (mg, ExternalObservation_zero, Some err)
      | Ok observed =>
        let cr := set_GCPNetworkStatus cr (GenerateGCPNetworkStatus observed) in
        ret (MNetwork cr, {| ResourceExists := true; ResourceUpToDate := false;
                             obs_ConnectionDetails := ∅ |}, None)
      end
  | _ => ret (mg, ExternalObservation_zero, Some (ErrNew errNotNetwork))
  end.

(** [networkExternal.Create] *)
Definition networkCreate (c : networkExternal) (mg : Managed) : M (Managed * option error) :=
  match mg with
  | MNetwork cr =>
    let n := GenerateNetwork (net_GCPNetworkSpec cr) in
    let* err := call (CallNetInsert (net_projectID c) n) (net_Insert (net_projectID c) n) in
    match err with
    | Some err => ret (mg, Some err)
    | None => ret (mg, None)
    end
  | _ => ret (mg, Some (ErrNew errNotNetwork))
  end.

(** [networkExternal.Update] *)
Definition networkUpdate (c : networkExternal) (mg : Managed)
  : M (Managed * ExternalUpdate * option error) :=
  match mg with
  | MNetwork cr =>
    let name := NetworkName (net_GCPNetworkSpec cr) in
    let n := GenerateNetwork (net_GCPNetworkSpec cr) in
    let* err := call (CallNetPatch (net_projectID c) name n)
                     (net_Patch (net_projectID c) name n) in
    match err with
    | Some err => ret (mg, ExternalUpdate_zero, Some err)
    | None => ret (mg, ExternalUpdate_zero, None)
    end
  | _ => ret (mg, ExternalUpdate_zero, Some (ErrNew errNotNetwork))
  end.

(** [networkExternal.Delete] *)
Definition networkDelete (c : networkExternal) (mg : Managed) : M (Managed * option error) :=
  match mg with
  | MNetwork cr =>
    let name := NetworkName (net_GCPNetworkSpec cr) in
    let* err := call (CallNetDelete (net_projectID c) name)
                     (net_Delete (net_projectID c) name) in
    if negb (clients_IsErrorNotFound err) && bool_decide (err ≠ None)
    then ret (mg, err)
    else ret (mg, None)
  | _ => ret (mg, Some (ErrNew errNotNetwork))
  end.

End NetworkController.

(** ** Late initialization *)

Module LateInit.

(** A spec is read as the finite map of the fields that are set; an
    observed state as the finite map of the fields for which the provider
    carries a concrete value. *)

(** Modelled from the spec: the late-initialization pass
    [cloudsql.LateInitializeSpec] of the CloudSQL client package, which is
    not among the sources. "For every optional field in record.spec left
    unset by the user, if ObservedState carries an equivalent concrete
    value, copy it into record.spec. Never overwrites a field the user has
    explicitly set, even if it disagrees with ObservedState." *)
Definition LateInitializeSpec {V : Type} (spec observed : gmap string V) : gmap string V :=
  merge (fun s o => match s with
                    | Some v => Some v
                    | None => o
                    end) spec observed.

End LateInit.

(** ** An in-memory provider and API server

    A concrete world on which the controllers can be run: providers and
    secrets by namespaced name, CloudSQL instances and networks by name,
    one list of database users, the status the API server stores for the
    managed record, and three switches that make every API-server call,
    every provider call or the source of random bytes fail with a given
    error. The managed record has a status subresource: a write of the
    record stores its spec and answers with the status the server holds,
    not the one it was sent. *)

Module Fake.
Local Open Scope string_scope.

Record Database := {
  fi_name : string;
  fi_fields : gmap string string;
  fi_state : InstanceState;
  fi_ips : list IPMapping
}.

#[export] Instance apis : Apis := {|
  CloudsqlInstanceParameters := gmap string string;
  DatabaseInstance := Database;
  GCPNetworkSpec := string;
  GCPNetworkStatus := string;
  ComputeNetwork := string
|}.

Definition hasCode (code : Z) (err : option error) : bool :=
  match err with
  | Some (GoogleapiError c _) => bool_decide (c = code)
  | _ => false
  end.

#[export] Instance clients : Clients := {|
  PasswordLength := 20;
  DatabaseUserName := fun _ => "root";
  GenerateObservation := fun i => {| State := fi_state i; IPAddresses := fi_ips i |};
  LateInitializeSpec := fun p i => LateInit.LateInitializeSpec p (fi_fields i);
  GenerateDatabaseInstance := fun p name =>
    {| fi_name := name; fi_fields := p; fi_state := StateCreating; fi_ips := [] |};
  gcp_IsErrorNotFound := hasCode 404;
  gcp_IsErrorAlreadyExists := hasCode 409;
  clients_IsErrorNotFound := hasCode 404;
  NetworkName := fun s => s;
  GenerateNetwork := fun s => s;
  GenerateGCPNetworkStatus := fun n => n
|}.

Record world := {
  providers : gmap string Provider;
  secrets : gmap string Secret;
  written : list CloudsqlInstance;
  instances : gmap string Database;
  users : list User;
  networks : gmap string string;
  kubeError : option error;
  apiError : option error;
  generatorError : option error;
  stored : CloudsqlInstanceStatus
}.

(** The status of an object that has just been created. *)
Definition newStatus : CloudsqlInstanceStatus :=
  {| Conditions := []; Phase := BindingPhaseUnset;
     AtProvider := {| State := StateOther ""; IPAddresses := [] |} |}.

Definition notFound : error := GoogleapiError 404 "not found".
Definition alreadyExists : error := GoogleapiError 409 "already exists".
Definition kubeNotFound : error := StatusError "NotFound" "not found".

(** A read: the injected error if any, the object if it is there, the
    given error otherwise. *)
Definition fetch {A} (injected : option error) (o : option A) (missing : error) : result A :=
  match injected, o with
  | Some e, _ => Err e
  | None, Some a => Ok a
  | None, None => Err missing
  end.

(** A write keyed by name: fails with the injected error if any, with
    [conflict] when [guard] is false, and applies [f] otherwise. *)
Definition store {A} (injected : option error) (guard : bool) (conflict : error)
           (f : A -> A) (a : A) : option error * A :=
  match injected with
  | Some e => (Some e, a)
  | None => if guard then (None, f a) else (Some conflict, a)
  end.

Definition with_instances (f : gmap string Database -> gmap string Database) (w : world) :=
  {| providers := providers w; secrets := secrets w; written := written w;
     instances := f (instances w); users := users w; networks := networks w;
     kubeError := kubeError w; apiError := apiError w;
     generatorError := generatorError w; stored := stored w |}.

Definition with_networks (f : gmap string string -> gmap string string) (w : world) :=
  {| providers := providers w; secrets := secrets w; written := written w;
     instances := instances w; users := users w; networks := f (networks w);
     kubeError := kubeError w; apiError := apiError w;
     generatorError := generatorError w; stored := stored w |}.

Definition with_users (f : list User -> list User) (w : world) :=
  {| providers := providers w; secrets := secrets w; written := written w;
     instances := instances w; users := f (users w); networks := networks w;
     kubeError := kubeError w; apiError := apiError w;
     generatorError := generatorError w; stored := stored w |}.

Definition with_written (f : list CloudsqlInstance -> list CloudsqlInstance) (w : world) :=
  {| providers := providers w; secrets := secrets w; written := f (written w);
     instances := instances w; users := users w; networks := networks w;
     kubeError := kubeError w; apiError := apiError w;
     generatorError := generatorError w; stored := stored w |}.

Definition present {A} (m : gmap string A) (k : string) : bool :=
  bool_decide (is_Some (m !! k)).

#[export] Instance cloud : World world := {|
  kube_GetProvider n w :=
    (fetch (kubeError w) (providers w !! NamespacedName_String n) kubeNotFound, w);
  kube_GetSecret n w :=
    (fetch (kubeError w) (secrets w !! NamespacedName_String n) kubeNotFound, w);
  kube_Update cr w :=
    match kubeError w with
    | Some e => (cr, Some e, w)
    | None => (set_Status cr (stored w), None, with_written (fun l => (l ++ [cr])%list) w)
    end;
  sqladmin_NewService _ w := (None, w);
  db_Get _ name w := (fetch (apiError w) (instances w !! name) notFound, w);
  db_Insert _ i w :=
    store (apiError w) (negb (present (instances w) (fi_name i))) alreadyExists
          (with_instances (insert (fi_name i) i)) w;
  db_Patch _ name i w :=
    store (apiError w) (present (instances w) name) notFound
          (with_instances (insert name i)) w;
  db_Delete _ name w :=
    store (apiError w) (present (instances w) name) notFound
          (with_instances (delete name)) w;
  user_List _ _ w := (fetch (apiError w) (Some (users w)) notFound, w);
  user_Update _ _ name _ u w :=
    store (apiError w) true notFound
          (with_users (map (fun v => if bool_decide (user_Name v = name) then u else v))) w;
  rand_Read n w :=
    match generatorError w with
    | Some e => ([], Some e, w)
    | None => (replicate (Z.to_nat n) x78, None, w)
    end;
  ProviderCredentials p w :=
    (match fetch (kubeError w)
                 (secrets w !! (provider_Namespace p +:+ "/" +:+ provider_SecretName p))
                 kubeNotFound with
     | Ok s => Ok (index (Data s) (provider_SecretKey p))
     | Err e => Err e
     end, w);
  compute_NewService _ w := (None, w);
  net_Get _ name w := (fetch (apiError w) (networks w !! name) notFound, w);
  net_Insert _ n w :=
    store (apiError w) (negb (present (networks w) n)) alreadyExists
          (with_networks (insert n n)) w;
  net_Patch _ name n w :=
    store (apiError w) (present (networks w) name) notFound
          (with_networks (insert name n)) w;
  net_Delete _ name w :=
    store (apiError w) (present (networks w) name) notFound
          (with_networks (delete name)) w
|}.

End Fake.

(** Sample resources and worlds on the in-memory provider. *)

Module Sample.
Import Fake.
Local Open Scope string_scope.

Definition empty : world :=
  {| providers := ∅; secrets := ∅; written := []; instances := ∅; users := [];
     networks := ∅; kubeError := None; apiError := None; generatorError := None;
     stored := newStatus |}.

Definition with_secret (name : string) (s : Secret) (w : world) : world :=
  {| providers := providers w; secrets := <[name := s]> (secrets w);
     written := written w; instances := instances w; users := users w;
     networks := networks w; kubeError := kubeError w; apiError := apiError w;
     generatorError := generatorError w; stored := stored w |}.

Definition with_kubeError (e : error) (w : world) : world :=
  {| providers := providers w; secrets := secrets w; written := written w;
     instances := instances w; users := users w; networks := networks w;
     kubeError := Some e; apiError := apiError w;
     generatorError := generatorError w; stored := stored w |}.

Definition with_apiError (e : error) (w : world) : world :=
  {| providers := providers w; secrets := secrets w; written := written w;
     instances := instances w; users := users w; networks := networks w;
     kubeError := kubeError w; apiError := Some e;
     generatorError := generatorError w; stored := stored w |}.

Definition with_generatorError (e : error) (w : world) : world :=
  {| providers := providers w; secrets := secrets w; written := written w;
     instances := instances w; users := users w; networks := networks w;
     kubeError := kubeError w; apiError := apiError w; generatorError := Some e;
     stored := stored w |}.

Definition private (a : string) : IPMapping := {| IPAddress := a; ip_Type := PrivateIPType |}.
Definition public (a : string) : IPMapping := {| IPAddress := a; ip_Type := PublicIPType |}.

(** The instance [db] as the provider holds it: one field the user may
    leave unset, a state and the addresses. *)
Definition database (state : InstanceState) (ips : list IPMapping) : Database :=
  {| fi_name := "db"; fi_fields := {[ "tier" := "db-n1-standard-1" ]};
     fi_state := state; fi_ips := ips |}.

Definition root : User := {| user_Name := "root"; user_Host := "%"; user_Password := "" |}.

(** A world that holds the instance [db] and its root account. *)
Definition hosting (i : Database) : world :=
  with_users (fun _ => [root]) (with_instances (insert "db" i) empty).

(** The connection secret [default/conn] with a password. *)
Definition password_secret (password : string) : Secret :=
  {| Data := {[ Key.Password := bytes_of password ]} |}.

(** The managed CloudSQL instance named [db], with the given parameters
    and the given observation in its status. *)
Definition cloudsql (parameters : gmap string string) (o : CloudsqlInstanceObservation)
  : CloudsqlInstance :=
  {| cr_Namespace := "default"; cr_ExternalName := "db";
     Spec := {| spec_ProviderReference := {| ref_Namespace := "default"; ref_Name := "gcp" |};
                spec_WriteConnectionSecretToReference := "conn";
                ForProvider := parameters |};
     Status := {| Conditions := []; Phase := BindingPhaseUnset; AtProvider := o |} |}.

Definition unobserved : CloudsqlInstanceObservation :=
  {| State := StateOther ""; IPAddresses := [] |}.

Definition addresses (ips : list IPMapping) : CloudsqlInstanceObservation :=
  {| State := StateRunnable; IPAddresses := ips |}.

(** A spec with its own [tier] and no [region], and an observed state
    with another [tier] and a [region]. *)
Definition declared : gmap string string := {[ "tier" := "custom" ]}.
Definition reported : gmap string string :=
  {[ "tier" := "db-n1-standard-1"; "region" := "us-west2" ]}.

(** Parameters that late initialization leaves alone on [database]. *)
Definition complete : gmap string string := {[ "tier" := "db-n1-standard-1" ]}.

Definition c : cloudsqlExternal := {| projectID := "project" |}.
Definition nc : networkExternal := {| net_projectID := "project" |}.

(** The managed network named [net]. *)
Definition network : Network :=
  {| net_ProviderReference := {| ref_Namespace := "default"; ref_Name := "gcp" |};
     net_GCPNetworkSpec := "net"; net_Conditions := []; net_GCPNetworkStatus := "" |}.

Definition backendError : error := GoogleapiError 500 "backend error".
Definition entropyError : error := ErrNew "crypto/rand: no entropy".
Definition serverError : error := StatusError "InternalError" "etcd is down".

(** *** Runs used as examples *)

(** Observe of an instance whose [tier] the user left unset. *)
Definition fresh : CloudsqlInstance := cloudsql ∅ unobserved.
Definition creating : Database := database StateCreating [].
Definition observe_fresh :=
  run (cloudsqlObserve c (MCloudsql fresh)) (hosting creating).

(** Observe of a runnable instance with a complete spec. *)
Definition settled : CloudsqlInstance := cloudsql complete unobserved.
Definition runnable : Database := database StateRunnable [public "1.2.3.4"].
Definition observe_settled :=
  run (cloudsqlObserve c (MCloudsql settled)) (hosting runnable).

(** The same while the API server fails. *)
Definition observe_settled_down :=
  run (cloudsqlObserve c (MCloudsql settled)) (with_kubeError serverError (hosting runnable)).

(** Observe of a network the provider holds. *)
Definition observe_network :=
  run (networkObserve nc (MNetwork network)) (with_networks (insert "net" "net") empty).
Definition observe_network_down :=
  run (networkObserve nc (MNetwork network)) (with_apiError backendError empty).

(** Two Creates in a row. *)
Definition create_once := run (cloudsqlCreate c (MCloudsql fresh)) empty.
Definition create_twice := run (cloudsqlCreate c (MCloudsql fresh)) create_once.2.1.
Definition create_network_once := run (networkCreate nc (MNetwork network)) empty.
Definition create_network_twice :=
  run (networkCreate nc (MNetwork network)) create_network_once.2.1.

(** Address lists. *)
Definition both : CloudsqlInstance :=
  cloudsql ∅ (addresses [public "1.2.3.4"; private "10.0.0.1"]).
Definition only_public : CloudsqlInstance := cloudsql ∅ (addresses [public "1.2.3.4"]).
Definition two_private : CloudsqlInstance :=
  cloudsql ∅ (addresses [private "10.0.0.1"; private "10.0.0.2"; public "1.2.3.4"]).
Definition empty_private : CloudsqlInstance :=
  cloudsql ∅ (addresses [private ""; public "1.2.3.4"]).
Definition two_public : CloudsqlInstance :=
  cloudsql ∅ (addresses [public "1.2.3.4"; public "5.6.7.8"; private "10.0.0.1"]).
Definition details (cr : CloudsqlInstance) : gmap string bytes :=
  (run (getConnectionDetails c cr) empty).1.1.
Definition details_down (cr : CloudsqlInstance) : gmap string bytes :=
  (run (getConnectionDetails c cr) (with_kubeError serverError empty)).1.1.

(** Rotations: with a persisted password, without one, and without a
    root account. *)
Definition with_password : world :=
  with_secret "default/conn" (password_secret "secretpw") (hosting runnable).
Definition rotate_persisted := run (updateRootCredentials c settled) with_password.
Definition rotate_new := run (updateRootCredentials c settled) (hosting runnable).
Definition no_accounts : world := with_instances (insert "db" runnable) empty.
Definition rotate_no_root := run (updateRootCredentials c settled) no_accounts.
Definition rotate_down :=
  run (updateRootCredentials c settled) (with_kubeError serverError (hosting runnable)).
Definition rotate_no_entropy :=
  run (updateRootCredentials c settled) (with_generatorError entropyError (hosting runnable)).

(** *** More resources and runs *)

(** Two public addresses and no private one. *)
Definition public_only_twice : CloudsqlInstance :=
  cloudsql ∅ (addresses [public "1.2.3.4"; public "5.6.7.8"]).

(** A record that is bound to a claim. *)
Definition bound : CloudsqlInstance :=
  SetBindingPhase settled BindingPhaseBound.
Definition observe_bound := run (cloudsqlObserve c (MCloudsql bound)) (hosting runnable).

(** Update of an instance whose password is persisted. *)
Definition update_settled := run (cloudsqlUpdate c (MCloudsql settled)) with_password.

(** The world after a rotation that generated a password, once the
    connection details it returned are stored as the connection secret. *)
Definition persisted_after_rotation : world :=
  with_secret "default/conn" {| Data := rotate_new.1.1 |} rotate_new.2.1.
Definition rotate_again := run (updateRootCredentials c settled) persisted_after_rotation.

(** An instance with an administrator and two root accounts. *)
Definition admin : User := {| user_Name := "admin"; user_Host := "%"; user_Password := "" |}.
Definition local_root : User :=
  {| user_Name := "root"; user_Host := "localhost"; user_Password := "" |}.
Definition several_accounts : world :=
  with_users (fun _ => [admin; root; local_root]) (hosting runnable).
Definition rotate_several := run (updateRootCredentials c settled) several_accounts.

(** A provider object and its credentials secret. *)
Definition gcp_provider : Provider :=
  {| provider_Namespace := "crossplane-system"; provider_SecretName := "gcp-creds";
     provider_SecretKey := "credentials.json"; provider_ProjectID := "my-project" |}.
Definition credentials : Secret :=
  {| Data := {[ "credentials.json" := bytes_of "{}" ]} |}.
Definition configured : world :=
  {| providers := {[ "default/gcp" := gcp_provider ]};
     secrets := {[ "crossplane-system/gcp-creds" := credentials ]};
     written := []; instances := ∅; users := []; networks := ∅;
     kubeError := None; apiError := None; generatorError := None;
     stored := newStatus |}.
Definition connect_cloudsql := run (cloudsqlConnect (MCloudsql settled)) configured.
Definition connect_network := run (networkConnect (MNetwork network)) configured.


(** The same on an API server that stores the status of an earlier
    Observe of the runnable instance. *)
Definition with_stored (st : CloudsqlInstanceStatus) (w : world) : world :=
  {| providers := providers w; secrets := secrets w; written := written w;
     instances := instances w; users := users w; networks := networks w;
     kubeError := kubeError w; apiError := apiError w;
     generatorError := generatorError w; stored := st |}.
Definition observed_before : world :=
  with_stored {| Conditions := [Available]; Phase := BindingPhaseBound;
                 AtProvider := addresses [public "1.2.3.4"] |}
              (hosting runnable).
Definition observe_fresh_again :=
  run (cloudsqlObserve c (MCloudsql fresh)) observed_before.

(** A network without a name. *)
Definition unnamed : Network :=
  {| net_ProviderReference := {| ref_Namespace := "default"; ref_Name := "gcp" |};
     net_GCPNetworkSpec := ""; net_Conditions := []; net_GCPNetworkStatus := "" |}.

(** A world that holds the network [net]. *)
Definition networked : world := with_networks (insert "net" "net") empty.

End Sample.

(** ** Vocabulary of the statements *)

(** The connection secret can be read: it is there, or the API server says
    it is not found (which [getConnectionDetails] treats as an empty
    secret). *)
Definition secretReadable (r : result Secret) : Prop :=
  match r with
  | Ok _ => True
  | Err e => kerrors_IsNotFound (Some e) = true
  end.

(** The secret [getConnectionDetails] goes on with. *)
Definition secretRead (r : result Secret) : Secret :=
  match r with
  | Ok s => s
  | Err _ => emptySecret
  end.

(** The address list reports an address of type [t], and every address of
    that type it reports is [a]. *)
Definition reports (t : IPType) (a : string) (ips : list IPMapping) : Prop :=
  Exists (fun ip => ip_Type ip = t) ips ∧
  Forall (fun ip => ip_Type ip = t → IPAddress ip = a) ips.

(** The address list reports no address of type [t]. *)
Definition lacks (t : IPType) (ips : list IPMapping) : Prop :=
  Forall (fun ip => ip_Type ip ≠ t) ips.

(** Whether the address list holds an address of type [t]. *)
Definition seen (t : IPType) (ips : list IPMapping) : bool :=
  existsb (fun ip => bool_decide (ip_Type ip = t)) ips.

(** The address keys of a map built from addresses that were [P] whenever
    private and [Q] whenever public; [sp] and [sq] tell whether a private
    and a public address have been met. *)
Definition addressKeys (P Q : string) (sp sq : bool) (m : gmap string bytes) : Prop :=
  m !! Key.PrivateIP = (if sp then Some (bytes_of P) else None) ∧
  m !! Key.PublicIP = (if sq then Some (bytes_of Q) else None) ∧
  m !! Key.Endpoint =
    (if sp then Some (bytes_of P) else if sq then Some (bytes_of Q) else None).

(** Whether an error was built by [errors.Wrap]. *)
Definition isWrapped (err : option error) : bool :=
  match err with
  | Some (ErrWrap _ _) => true
  | _ => false
  end.

(** How often a kind of call occurs in a log. *)
Definition count `{Apis} (p : Call → bool) (log : list Call) : nat :=
  length (filter (fun c => p c = true) log).

(** The addresses of type [t] in the order the provider lists them. *)
Definition addressesOf (t : IPType) (ips : list IPMapping) : list string :=
  map IPAddress (filter (fun ip => ip_Type ip = t) ips).

(** A public-type address that is not empty. *)
Definition isUsablePublic (ip : IPMapping) : bool :=
  bool_decide (ip_Type ip = PublicIPType) && negb (bool_decide (IPAddress ip = ""%string)).

(** The five keys a connection secret of a CloudSQL instance may hold. *)
Definition connectionKeys : gset string :=
  {[ Key.User; Key.Password; Key.Endpoint; Key.PrivateIP; Key.PublicIP ]}.

(** Whether a call asks the provider to change something. *)
Definition changesProvider `{Apis} (c : Call) : bool :=
  match c with
  | CallDbInsert _ _ | CallDbPatch _ _ _ | CallDbDelete _ _
  | CallUserUpdate _ _ _ _ _
  | CallNetInsert _ _ | CallNetPatch _ _ _ | CallNetDelete _ _ => true
  | _ => false
  end.

Section Names.
Context `{Apis}.

(** The record as [Observe] passes it to [getConnectionDetails] when the
    instance is runnable: the Available condition set, and the binding
    phase made bindable unless the resource is bound. *)
Definition madeAvailable (cr : CloudsqlInstance) : CloudsqlInstance :=
  let cr := set_Conditions cr (SetConditions Available (Conditions (Status cr))) in
  if negb (IsBound cr) then SetBindable cr else cr.

(** The name of the connection secret of a CloudSQL instance. *)
Definition connectionSecret (cr : CloudsqlInstance) : NamespacedName :=
  {| nn_Name := spec_WriteConnectionSecretToReference (Spec cr);
     nn_Namespace := cr_Namespace cr |}.

(** The record as [Observe] leaves it after the late-initialization pass:
    the observation copied into the status, the spec late-initialized. *)
Definition lateInitialized `{!Clients} (cr : CloudsqlInstance) (instance : DatabaseInstance)
  : CloudsqlInstance :=
  set_ForProvider (set_AtProvider cr (GenerateObservation instance))
                  (LateInitializeSpec (ForProvider (Spec cr)) instance).

(** The record [Observe] goes on with after the write-back step, in the
    world [w1] the fetch left: the late-initialized record when late
    initialization left the spec unchanged and nothing is written, and
    otherwise the record as [kube.Update] leaves it. *)
Definition afterWriteBack `{!Clients} {W : Type} `{!World W}
           (cr : CloudsqlInstance) (instance : DatabaseInstance) (w1 : W)
  : CloudsqlInstance :=
  if bool_decide (ForProvider (Spec cr) = LateInitializeSpec (ForProvider (Spec cr)) instance)
  then lateInitialized cr instance
  else (kube_Update (lateInitialized cr instance) w1).1.1.

End Names.

(** * Properties *)

(** ** Bytes and strings *)

Lemma bytes_of_string_of (b : bytes) : bytes_of (string_of b) = b.
Proof. apply String.list_byte_of_string_of_list_byte. Qed.

Lemma string_of_bytes_of (s : string) : string_of (bytes_of s) = s.
Proof. apply String.string_of_list_byte_of_string. Qed.

Lemma slen_string_of (b : bytes) : slen (string_of b) = len b.
Proof.
  unfold slen, len, string_of. f_equal.
  induction b as [|x b IH]; cbn; [done | by f_equal].
Qed.

Lemma len_bytes_of (s : string) : len (bytes_of s) = slen s.
Proof. by rewrite <- slen_string_of, string_of_bytes_of. Qed.

Lemma len_zero (b : bytes) : len b = 0 ↔ b = [].
Proof. unfold len. destruct b; simpl; split; (done || lia). Qed.

Lemma slen_zero (s : string) : slen s = 0 ↔ s = ""%string.
Proof. unfold slen. destruct s; simpl; split; (done || lia). Qed.

(** ** Address selection *)

Section AddressSelection.
Implicit Types (m : gmap string bytes) (ip : IPMapping) (ips : list IPMapping).

Lemma bytes_of_nonempty (s : string) : s ≠ ""%string → len (bytes_of s) ≠ 0.
Proof. rewrite len_bytes_of, slen_zero. done. Qed.

Lemma addAddress_keys P Q sp sq m ip :
  P ≠ ""%string →
  (ip_Type ip = PrivateIPType → IPAddress ip = P) →
  (ip_Type ip = PublicIPType → IPAddress ip = Q) →
  addressKeys P Q sp sq m →
  addressKeys P Q (sp || bool_decide (ip_Type ip = PrivateIPType))
                  (sq || bool_decide (ip_Type ip = PublicIPType)) (addAddress m ip).
Proof.
  intros HP Hpriv Hpub (Hm1 & Hm2 & Hm3).
  pose proof (bytes_of_nonempty P HP) as HlenP.
  destruct ip as [a t]; simpl in *. unfold addAddress, addressKeys; simpl.
  destruct t as [| |s]; simpl; rewrite ?orb_true_r, ?orb_false_r.
  - rewrite (Hpriv eq_refl). unfold Key.Endpoint, Key.PrivateIP, Key.PublicIP in *.
    by simplify_map_eq.
  - rewrite (Hpub eq_refl). unfold index.
    unfold Key.Endpoint, Key.PrivateIP, Key.PublicIP in *.
    rewrite lookup_insert_ne, Hm3 by done.
    destruct sp; simpl.
    + rewrite bool_decide_eq_false_2 by done. by simplify_map_eq.
    + destruct sq; simpl.
      * case_bool_decide; by simplify_map_eq.
      * by simplify_map_eq.
  - done.
Qed.

Lemma fold_addAddress_keys P Q ips : ∀ sp sq m,
  P ≠ ""%string →
  Forall (fun ip => ip_Type ip = PrivateIPType → IPAddress ip = P) ips →
  Forall (fun ip => ip_Type ip = PublicIPType → IPAddress ip = Q) ips →
  addressKeys P Q sp sq m →
  addressKeys P Q (sp || seen PrivateIPType ips) (sq || seen PublicIPType ips)
              (fold_left addAddress ips m).
Proof.
  induction ips as [|ip ips IH]; intros sp sq m HP Hpriv Hpub Hm; simpl.
  - by rewrite !orb_false_r.
  - inversion Hpriv as [|? ? Hp1 Hp2]; inversion Hpub as [|? ? Hq1 Hq2]; subst.
    rewrite !orb_assoc. apply IH; [done..|].
    by apply addAddress_keys.
Qed.

(** The loop leaves the user name and the password alone. *)
Lemma fold_addAddress_other k ips : ∀ m,
  k ≠ Key.PrivateIP → k ≠ Key.PublicIP → k ≠ Key.Endpoint →
  fold_left addAddress ips m !! k = m !! k.
Proof.
  induction ips as [|ip ips IH]; intros m H1 H2 H3; simpl; [done|].
  rewrite IH by done. unfold addAddress.
  repeat case_bool_decide; by simplify_map_eq.
Qed.

Lemma seen_Exists t ips : Exists (fun ip => ip_Type ip = t) ips → seen t ips = true.
Proof.
  unfold seen. induction 1 as [ip ips Hip|ip ips _ IH]; simpl.
  - by rewrite bool_decide_eq_true_2.
  - by rewrite IH, orb_true_r.
Qed.

Lemma seen_lacks t ips : lacks t ips → seen t ips = false.
Proof.
  unfold seen, lacks. induction 1 as [|ip ips Hip _ IH]; simpl; [done|].
  by rewrite bool_decide_eq_false_2.
Qed.

End AddressSelection.

(** ** Running the controllers *)

Ltac exec := unfold run, bind, call, ret; simpl.

Section ConnectionDetails.
Context `{Clients} {W : Type} `{!World W}.
Implicit Types (c : cloudsqlExternal) (cr : CloudsqlInstance) (w : W) (log : list Call).

(** What one run of [getConnectionDetails] does: one read of the connection
    secret, and then either the read's error or the map built from the
    secret that was read. *)
Lemma getConnectionDetails_run c cr w r w1 :
  kube_GetSecret (connectionSecret cr) w = (r, w1) →
  ∃ m err,
    run (getConnectionDetails c cr) w = (m, err, (w1, [CallKubeGetSecret (connectionSecret cr)])) ∧
    (secretReadable r →
       err = None ∧
       m = fold_left addAddress (IPAddresses (AtProvider (Status cr)))
             (if bool_decide (len (index (Data (secretRead r)) Key.Password) ≠ 0)
              then <[Key.Password := index (Data (secretRead r)) Key.Password]>
                     {[ Key.User := bytes_of (DatabaseUserName cr) ]}
              else {[ Key.User := bytes_of (DatabaseUserName cr) ]})) ∧
    (¬ secretReadable r → ∃ e, r = Err e ∧ err = Some e ∧ m = ∅).
Proof.
  intros Hget. unfold getConnectionDetails. exec.
  fold (connectionSecret cr). rewrite Hget.
  destruct r as [s|e]; simpl.
  - eexists _, _. split; [reflexivity|]. split; [done|]. intros []. exact I.
  - unfold IgnoreNotFound, Ignore.
    destruct (kerrors_IsNotFound (Some e)) eqn:He; simpl.
    + eexists _, _. split; [reflexivity|]. split; [done|]. by intros [].
    + eexists _, _. split; [reflexivity|]. split; [|intros _; by exists e].
      intros Hc. change (kerrors_IsNotFound (Some e) = true) in Hc. congruence.
Qed.

(** The calls a computation makes are appended to the log it starts from. *)
Lemma getConnectionDetails_frame c cr w log :
  getConnectionDetails c cr (w, log) =
  ((run (getConnectionDetails c cr) w).1,
   ((run (getConnectionDetails c cr) w).2.1, log ++ (run (getConnectionDetails c cr) w).2.2)).
Proof.
  unfold getConnectionDetails. exec.
  destruct (kube_GetSecret _ w) as [[s|e] w1]; simpl; [done|].
  by destruct (IgnoreNotFound (Some e)).
Qed.

(** The password of the derived map is the persisted one when that is not
    empty, and is missing otherwise. *)
Lemma getConnectionDetails_password c cr w r w1 m err log :
  kube_GetSecret (connectionSecret cr) w = (r, w1) →
  secretReadable r →
  run (getConnectionDetails c cr) w = (m, err, (w1, log)) →
  index m Key.Password = index (Data (secretRead r)) Key.Password.
Proof.
  intros Hget Hr Hrun.
  destruct (getConnectionDetails_run c cr w r w1 Hget) as (m' & err' & Hrun' & Hok & _).
  rewrite Hrun in Hrun'. injection Hrun' as -> -> _.
  destruct (Hok Hr) as [_ ->]. unfold index at 1.
  rewrite fold_addAddress_other by done.
  case_bool_decide as Hlen.
  - by rewrite lookup_insert_eq.
  - rewrite lookup_singleton_ne by done. simpl.
    symmetry. apply len_zero. lia.
Qed.

(** C3 (amended). When the connection secret can be read, the derived
    connection details hold no error and: if every private-type address of
    the observed list is the non-empty [P] and every public-type address
    is [Q], with at least one of each in any order, then endpoint = [P],
    privateIP = [P] and publicIP = [Q]; if the list has no private-type
    address and every public-type address is [Q], with at least one, then
    endpoint = [Q], publicIP = [Q] and there is no privateIP key. *)
Theorem connection_details_select_addresses c cr w P Q m err w' log :
  run (getConnectionDetails c cr) w = (m, err, (w', log)) →
  secretReadable (kube_GetSecret (connectionSecret cr) w).1 →
  (reports PrivateIPType P (IPAddresses (AtProvider (Status cr))) →
   P ≠ ""%string →
   reports PublicIPType Q (IPAddresses (AtProvider (Status cr))) →
   err = None ∧
   m !! Key.Endpoint = Some (bytes_of P) ∧
   m !! Key.PrivateIP = Some (bytes_of P) ∧
   m !! Key.PublicIP = Some (bytes_of Q))
  ∧
  (lacks PrivateIPType (IPAddresses (AtProvider (Status cr))) →
   reports PublicIPType Q (IPAddresses (AtProvider (Status cr))) →
   err = None ∧
   m !! Key.Endpoint = Some (bytes_of Q) ∧
   m !! Key.PublicIP = Some (bytes_of Q) ∧
   m !! Key.PrivateIP = None).
Proof.
  intros Hrun Hr.
  destruct (kube_GetSecret (connectionSecret cr) w) as [r w1] eqn:Hget. simpl in Hr.
  destruct (getConnectionDetails_run c cr w r w1 Hget) as (m' & err' & Hrun' & Hok & _).
  rewrite Hrun in Hrun'. injection Hrun' as -> -> _ _.
  destruct (Hok Hr) as [-> ->].
  set (m0 := if bool_decide _ then _ else _).
  assert (addressKeys "p" Q false false m0) as Hq0.
  { unfold addressKeys, m0. case_bool_decide; by simplify_map_eq. }
  split.
  - intros [HexP HallP] HP [HexQ HallQ].
    assert (addressKeys P Q false false m0) as Hm0.
    { unfold addressKeys, m0. case_bool_decide; by simplify_map_eq. }
    pose proof (fold_addAddress_keys P Q _ false false m0 HP HallP HallQ Hm0) as Hkeys.
    simpl in Hkeys. rewrite !seen_Exists in Hkeys by done.
    destruct Hkeys as (? & ? & ?). done.
  - intros Hlacks [HexQ HallQ].
    assert (Forall (fun ip => ip_Type ip = PrivateIPType → IPAddress ip = "p"%string)
                   (IPAddresses (AtProvider (Status cr)))) as HallP.
    { eapply Forall_impl; [exact Hlacks|]. simpl. intros ip Hne Heq. done. }
    pose proof (fold_addAddress_keys "p" Q _ false false m0 ltac:(done) HallP HallQ Hq0)
      as Hkeys.
    simpl in Hkeys. rewrite seen_lacks, seen_Exists in Hkeys by done.
    destruct Hkeys as (? & ? & ?). done.
Qed.

End ConnectionDetails.

(** ** Observe *)

Section Observe.
Context `{Clients} {W : Type} `{!World W}.
Implicit Types (c : cloudsqlExternal) (cr : CloudsqlInstance) (w : W) (log : list Call).

(** C5 (amended). When the provider reports the resource absent, Observe
    of either controller returns exists = false and no error and leaves the
    record, and so its status, as it was. Any other fetch failure is
    returned as an error: wrapped with the observe-phase prefix by the
    database controller, as the provider gave it by the network
    controller. *)
Theorem observe_fetch_failure c cr nc (ncr : Network) w e w1 :
  (db_Get (projectID c) (GetExternalName cr) w = (Err e, w1) →
     (gcp_IsErrorNotFound (Some e) = true →
        run (cloudsqlObserve c (MCloudsql cr)) w =
          (MCloudsql cr, ExternalObservation_zero, None,
           (w1, [CallDbGet (projectID c) (GetExternalName cr)])))
     ∧
     (gcp_IsErrorNotFound (Some e) = false →
        run (cloudsqlObserve c (MCloudsql cr)) w =
          (MCloudsql cr, ExternalObservation_zero, Some (ErrWrap e Msg.errGetFailed),
           (w1, [CallDbGet (projectID c) (GetExternalName cr)]))))
  ∧
  (net_Get (net_projectID nc) (NetworkName (net_GCPNetworkSpec ncr)) w = (Err e, w1) →
     (clients_IsErrorNotFound (Some e) = true →
        run (networkObserve nc (MNetwork ncr)) w =
          (MNetwork ncr, ExternalObservation_zero, None,
           (w1, [CallNetGet (net_projectID nc) (NetworkName (net_GCPNetworkSpec ncr))])))
     ∧
     (clients_IsErrorNotFound (Some e) = false →
        run (networkObserve nc (MNetwork ncr)) w =
          (MNetwork ncr, ExternalObservation_zero, Some e,
           (w1, [CallNetGet (net_projectID nc) (NetworkName (net_GCPNetworkSpec ncr))])))).
Proof.
  split; intros Hget; split; intros Hnf.
  - unfold cloudsqlObserve. exec. unfold GetExternalName in *.
    rewrite Hget. simpl. unfold Ignore. by rewrite Hnf.
  - unfold cloudsqlObserve. exec. unfold GetExternalName in *.
    rewrite Hget. simpl. unfold Ignore. by rewrite Hnf.
  - unfold networkObserve. exec. rewrite Hget. simpl. by rewrite Hnf.
  - unfold networkObserve. exec. rewrite Hget. simpl. by rewrite Hnf.
Qed.

Lemma getConnectionDetails_calls c cr w :
  (run (getConnectionDetails c cr) w).2.2 = [CallKubeGetSecret (connectionSecret cr)].
Proof.
  destruct (kube_GetSecret (connectionSecret cr) w) as [r w1] eqn:Hget.
  destruct (getConnectionDetails_run c cr w r w1 Hget) as (m & err & -> & _). done.
Qed.

(** Unfolds one Observe of a found instance, in the hypothesis [Hrun], into
    its paths: spec unchanged or written back (with or without error), then
    the state the record holds, then the outcome of the connection
    details. The record after the write-back step is rewritten in the goal
    as well. *)
Ltac observe_paths Hget Hrun :=
  unfold cloudsqlObserve in Hrun; unfold run, bind, call, ret in Hrun; simpl in Hrun;
  unfold GetExternalName in *; rewrite Hget in Hrun; simpl in Hrun;
  unfold afterWriteBack;
  match type of Hrun with
  | context [LateInitializeSpec (ForProvider (Spec ?cr)) ?inst] =>
      fold (lateInitialized cr inst) in Hrun;
      destruct (bool_decide_reflect
                  (ForProvider (Spec cr) = LateInitializeSpec (ForProvider (Spec cr)) inst))
        as [Hspec|Hspec]; simpl in Hrun;
      [destruct (State (GenerateObservation inst)) eqn:Hstate; simpl in Hrun
      |let back := fresh "back" in let e := fresh "e" in
       let w2 := fresh "w2" in let Hupd := fresh "Hupd" in
       destruct (kube_Update (lateInitialized cr inst) _) as [[back [e|]] w2] eqn:Hupd;
       simpl in Hrun;
       [|destruct (State (AtProvider (Status back))) eqn:Hstate; simpl in Hrun]]
  end;
  try (rewrite getConnectionDetails_frame in Hrun;
       let Hcalls := fresh "Hcalls" in
       match type of Hrun with
       | context [run (getConnectionDetails ?c ?cr') ?w'] =>
           pose proof (getConnectionDetails_calls c cr' w') as Hcalls;
           destruct (run (getConnectionDetails c cr') w') as [[conn [ec|]] [w3 l3]];
           simpl in Hcalls, Hrun; subst l3
       end);
  injection Hrun as <- <- <- <- <-.

(** C1 (amended). For every Observe of the database controller that
    fetches the instance: when it returns no error, the returned upToDate
    flag is true if and only if late initialization left the spec
    unchanged; when the spec changed, the write of the late-initialized
    record is the call that follows the fetch, and a failure of that write
    is returned wrapped; when the spec did not change, no write is made.
    Observe of the network controller has no late-initialization pass: it
    never writes the record, and the flag it returns is always false. *)
Theorem observe_up_to_date c cr w inst w1 mg' obs err w' log :
  db_Get (projectID c) (GetExternalName cr) w = (Ok inst, w1) →
  run (cloudsqlObserve c (MCloudsql cr)) w = (mg', obs, err, (w', log)) →
  (err = None →
     (ResourceUpToDate obs = true ↔
      LateInitializeSpec (ForProvider (Spec cr)) inst = ForProvider (Spec cr)))
  ∧
  (LateInitializeSpec (ForProvider (Spec cr)) inst ≠ ForProvider (Spec cr) →
     (∃ rest, log = CallDbGet (projectID c) (GetExternalName cr)
                    :: CallKubeUpdate (lateInitialized cr inst) :: rest) ∧
     (∀ e, (kube_Update (lateInitialized cr inst) w1).1.2 = Some e →
           err = Some (ErrWrap e Msg.errManagedUpdateFailed)))
  ∧
  (LateInitializeSpec (ForProvider (Spec cr)) inst = ForProvider (Spec cr) →
     count isKubeUpdate log = 0%nat)
  ∧
  (∀ (nc : networkExternal) (ncr : Network) (nw : W),
     ResourceUpToDate (run (networkObserve nc (MNetwork ncr)) nw).1.1.2 = false ∧
     count isKubeUpdate (run (networkObserve nc (MNetwork ncr)) nw).2.2 = 0%nat).
Proof.
  intros Hget Hrun. split; [|split; [|split]].
  - intros Herr. observe_paths Hget Hrun; simpl; try done;
      rewrite bool_decide_eq_true; split; congruence.
  - intros Hne. split.
    + observe_paths Hget Hrun; try congruence; eexists; reflexivity.
    + intros eu Hu. observe_paths Hget Hrun; try congruence; simpl in Hu; congruence.
  - intros Heq. observe_paths Hget Hrun; try congruence; reflexivity.
  - intros nc ncr nw. unfold networkObserve. exec.
    destruct (net_Get _ _ nw) as [[n|e] w2]; simpl;
      by destruct (clients_IsErrorNotFound _).
Qed.

(** After [SetConditions], the condition of the given type is the new
    one. *)
Lemma GetCondition_SetConditions (new : Condition) (cs : list Condition) :
  GetCondition (cond_Type new) (SetConditions new cs) = Some new.
Proof.
  unfold GetCondition, SetConditions.
  destruct (existsb _ cs) eqn:Hex.
  - induction cs as [|x cs IH]; simpl in *; [done|].
    case_bool_decide as Hx; simpl.
    + by rewrite bool_decide_eq_true_2.
    + rewrite bool_decide_eq_false_2 by done. by apply IH.
  - induction cs as [|x cs IH]; simpl in *.
    + by rewrite bool_decide_eq_true_2.
    + apply orb_false_iff in Hex as [Hx Hcs]. rewrite Hx. by apply IH.
Qed.

Lemma Conditions_SetBindable cr :
  Conditions (Status (if negb (IsBound cr) then SetBindable cr else cr))
  = Conditions (Status cr).
Proof. unfold SetBindable. by destruct (IsBound cr). Qed.

(** When late initialization leaves the spec unchanged, the record Observe
    goes on with is the given one with the new observation in its
    status. *)
Lemma afterWriteBack_unchanged cr inst w1 :
  LateInitializeSpec (ForProvider (Spec cr)) inst = ForProvider (Spec cr) →
  afterWriteBack cr inst w1 = set_AtProvider cr (GenerateObservation inst).
Proof.
  intros Hspec. unfold afterWriteBack. rewrite bool_decide_eq_true_2 by done.
  unfold lateInitialized. rewrite Hspec.
  by destruct cr as [? ? [? ? ?] ?].
Qed.


(** X1. Observe only reads the provider: whatever resource and world it is
    given, Observe of either controller submits no insert, patch, delete or
    account update and generates no password; the database controller
    makes at most three calls (the fetch, the write-back of the record,
    the read of the connection secret), the network controller at most
    one. *)
Theorem observe_only_reads_provider c (nc : networkExternal) (mg : Managed) w :
  (count changesProvider (run (cloudsqlObserve c mg) w).2.2 = 0%nat ∧
   count isGeneratePassword (run (cloudsqlObserve c mg) w).2.2 = 0%nat ∧
   (length (run (cloudsqlObserve c mg) w).2.2 ≤ 3)%nat)
  ∧
  (count changesProvider (run (networkObserve nc mg) w).2.2 = 0%nat ∧
   count isGeneratePassword (run (networkObserve nc mg) w).2.2 = 0%nat ∧
   count isKubeGetSecret (run (networkObserve nc mg) w).2.2 = 0%nat ∧
   (length (run (networkObserve nc mg) w).2.2 ≤ 1)%nat).
Proof.
  split.
  - destruct mg as [cr|ncr|kind]; try (repeat split; simpl; lia).
    destruct (db_Get (projectID c) (GetExternalName cr) w) as [[inst|e] w1] eqn:Hget.
    + destruct (run (cloudsqlObserve c (MCloudsql cr)) w)
        as [[[mg' obs] err] [w' log]] eqn:Hrun. simpl.
      observe_paths Hget Hrun; repeat split; simpl; lia.
    + unfold cloudsqlObserve. exec. unfold GetExternalName in *. rewrite Hget.
      repeat split; simpl; lia.
  - destruct mg as [cr|ncr|kind]; try (repeat split; simpl; lia).
    unfold networkObserve. exec.
    destruct (net_Get _ _ w) as [[n|e] w1]; simpl;
      destruct (clients_IsErrorNotFound _); repeat split; simpl; lia.
Qed.

(** X2. Once the instance is fetched, Observe changes nothing but the
    conditions and the binding phase of the record it goes on with after
    the write-back step, on every path, also when it returns an error: the
    record it leaves has the spec, the observation, the namespace and the
    external name of that record. When late initialization left the spec
    unchanged, so that nothing is written back, the record it leaves
    therefore holds the new observation and the spec, the namespace and
    the external name it was given. *)
Theorem observe_record_frame c cr w inst w1 mg' obs err w' log :
  db_Get (projectID c) (GetExternalName cr) w = (Ok inst, w1) →
  run (cloudsqlObserve c (MCloudsql cr)) w = (mg', obs, err, (w', log)) →
  ∃ cr', mg' = MCloudsql cr' ∧
         Spec cr' = Spec (afterWriteBack cr inst w1) ∧
         AtProvider (Status cr') = AtProvider (Status (afterWriteBack cr inst w1)) ∧
         cr_Namespace cr' = cr_Namespace (afterWriteBack cr inst w1) ∧
         GetExternalName cr' = GetExternalName (afterWriteBack cr inst w1) ∧
         (LateInitializeSpec (ForProvider (Spec cr)) inst = ForProvider (Spec cr) →
          AtProvider (Status cr') = GenerateObservation inst ∧
          Spec cr' = Spec cr ∧
          cr_Namespace cr' = cr_Namespace cr ∧
          GetExternalName cr' = GetExternalName cr).
Proof.
  intros Hget Hrun.
  assert (∃ cr', mg' = MCloudsql cr' ∧
                 Spec cr' = Spec (afterWriteBack cr inst w1) ∧
                 AtProvider (Status cr') = AtProvider (Status (afterWriteBack cr inst w1)) ∧
                 cr_Namespace cr' = cr_Namespace (afterWriteBack cr inst w1) ∧
                 GetExternalName cr' = GetExternalName (afterWriteBack cr inst w1))
    as (cr' & -> & Hs & Ho & Hn & He).
  { observe_paths Hget Hrun; eexists; (split; [reflexivity|]);
      unfold SetBindable; try destruct (IsBound _); repeat split. }
  exists cr'. split; [done|]. repeat split; try done;
    rewrite ?Hs, ?Ho, ?Hn, ?He, afterWriteBack_unchanged by done; done.
Qed.

Lemma Phase_madeAvailable cr :
  Phase (Status (madeAvailable cr))
  = if bool_decide (Phase (Status cr) = BindingPhaseBound)
    then BindingPhaseBound else BindingPhaseUnbound.
Proof.
  unfold madeAvailable, SetBindable, IsBound. cbn.
  destruct (bool_decide_reflect (Phase (Status cr) = BindingPhaseBound)) as [Hb|Hb];
    cbn; done.
Qed.

(** X3. Observe never unbinds. Relative to the record it goes on with
    after the write-back step: when that record holds the Runnable state
    and the write-back, if there was one, succeeded, the binding phase
    stays Bound if it was Bound and becomes Unbound otherwise; when it
    holds another state, or the write-back fails, the binding phase is
    left as it was. When nothing is written back, that record has the
    binding phase and the observed state of the given record. *)
Theorem observe_binding_phase c cr w inst w1 mg' obs err w' log :
  db_Get (projectID c) (GetExternalName cr) w = (Ok inst, w1) →
  run (cloudsqlObserve c (MCloudsql cr)) w = (mg', obs, err, (w', log)) →
  ∃ cr', mg' = MCloudsql cr' ∧
    (State (AtProvider (Status (afterWriteBack cr inst w1))) = StateRunnable →
     LateInitializeSpec (ForProvider (Spec cr)) inst = ForProvider (Spec cr)
       ∨ (kube_Update (lateInitialized cr inst) w1).1.2 = None →
     Phase (Status cr')
     = if bool_decide (Phase (Status (afterWriteBack cr inst w1)) = BindingPhaseBound)
       then BindingPhaseBound else BindingPhaseUnbound) ∧
    (State (AtProvider (Status (afterWriteBack cr inst w1))) ≠ StateRunnable →
     Phase (Status cr') = Phase (Status (afterWriteBack cr inst w1))) ∧
    (LateInitializeSpec (ForProvider (Spec cr)) inst ≠ ForProvider (Spec cr) →
     (kube_Update (lateInitialized cr inst) w1).1.2 ≠ None →
     Phase (Status cr') = Phase (Status (afterWriteBack cr inst w1))) ∧
    (LateInitializeSpec (ForProvider (Spec cr)) inst = ForProvider (Spec cr) →
     Phase (Status (afterWriteBack cr inst w1)) = Phase (Status cr) ∧
     State (AtProvider (Status (afterWriteBack cr inst w1)))
     = State (GenerateObservation inst)).
Proof.
  intros Hget Hrun.
  assert (LateInitializeSpec (ForProvider (Spec cr)) inst = ForProvider (Spec cr) →
          Phase (Status (afterWriteBack cr inst w1)) = Phase (Status cr) ∧
          State (AtProvider (Status (afterWriteBack cr inst w1)))
          = State (GenerateObservation inst)) as Hsame.
  { intros Hspec. by rewrite afterWriteBack_unchanged. }
  revert Hsame.
  observe_paths Hget Hrun; intros Hsame; eexists; (split; [reflexivity|]);
    (split; [|split; [|split; [|exact Hsame]]]); simpl;
    try (intros Hs; congruence);
    try (intros Hs Hw; simpl in Hw; congruence);
    try (intros ? [Hw|Hw]; simpl in Hw; congruence);
    try reflexivity;
    try (intros _ _;
         first [exact (Phase_madeAvailable (lateInitialized cr inst))
               |match goal with
                | Hupd : kube_Update _ _ = (?back, _, _) |- _ =>
                    exact (Phase_madeAvailable back)
                end]).
Qed.

(** X4. How Observe composes with [getConnectionDetails]: when the record
    Observe goes on with after the write-back step holds the Runnable
    state, the details are derived for that record with the Available
    condition already set, in the world the write-back left; their error,
    if any, comes back wrapped with the connection prefix together with
    the zero observation (which says the resource does not exist) and the
    record keeps its Available condition; without an error the observation
    carries the derived details and says the resource exists. *)
Theorem observe_runnable_composes c cr w inst w1 w2 gm gerr w3 glog :
  db_Get (projectID c) (GetExternalName cr) w = (Ok inst, w1) →
  (LateInitializeSpec (ForProvider (Spec cr)) inst = ForProvider (Spec cr) ∧ w2 = w1)
    ∨ (LateInitializeSpec (ForProvider (Spec cr)) inst ≠ ForProvider (Spec cr) ∧
       (kube_Update (lateInitialized cr inst) w1).1.2 = None ∧
       (kube_Update (lateInitialized cr inst) w1).2 = w2) →
  State (AtProvider (Status (afterWriteBack cr inst w1))) = StateRunnable →
  run (getConnectionDetails c (madeAvailable (afterWriteBack cr inst w1))) w2
  = (gm, gerr, (w3, glog)) →
  ∃ obs log,
    run (cloudsqlObserve c (MCloudsql cr)) w
    = (MCloudsql (madeAvailable (afterWriteBack cr inst w1)), obs,
       Wrap gerr Msg.errConnectionNotRetrieved, (w3, log)) ∧
    GetCondition TypeReady (Conditions (Status (madeAvailable (afterWriteBack cr inst w1))))
    = Some Available ∧
    (gerr = None →
     obs = {| ResourceExists := true;
              ResourceUpToDate :=
                bool_decide (ForProvider (Spec cr)
                             = LateInitializeSpec (ForProvider (Spec cr)) inst);
              obs_ConnectionDetails := gm |}) ∧
    (gerr ≠ None → obs = ExternalObservation_zero).
Proof.
  intros Hget Hwrite Hstate Hconn.
  assert (GetCondition TypeReady
            (Conditions (Status (madeAvailable (afterWriteBack cr inst w1))))
          = Some Available) as Hcond.
  { unfold madeAvailable. rewrite Conditions_SetBindable. simpl.
    apply (GetCondition_SetConditions Available). }
  revert Hstate Hconn Hcond. unfold afterWriteBack.
  unfold cloudsqlObserve. exec. unfold GetExternalName in *. rewrite Hget. simpl.
  fold (lateInitialized cr inst).
  destruct Hwrite as [[Hspec ->]|(Hspec & Herr & Hw2)].
  - rewrite !bool_decide_eq_true_2 by done. simpl. intros Hstate Hconn Hcond.
    rewrite Hstate.
    rewrite getConnectionDetails_frame.
    repeat match goal with
           | |- context [run (getConnectionDetails c ?x) ?v] =>
               progress change x with (madeAvailable (lateInitialized cr inst))
           end.
    unfold run. rewrite Hconn. simpl.
    destruct gerr as [e|]; eexists _, _; (split; [reflexivity|]);
      (split; [exact Hcond|]); split; congruence.
  - rewrite !bool_decide_eq_false_2 by done. simpl.
    destruct (kube_Update (lateInitialized cr inst) w1) as [[back eu] wu].
    simpl in Herr, Hw2. subst eu wu. simpl. intros Hstate Hconn Hcond.
    rewrite Hstate.
    rewrite getConnectionDetails_frame.
    repeat match goal with
           | |- context [run (getConnectionDetails c ?x) ?v] =>
               progress change x with (madeAvailable back)
           end.
    unfold run. rewrite Hconn. simpl.
    destruct gerr as [e|]; eexists _, _; (split; [reflexivity|]);
      (split; [exact Hcond|]); split; congruence.
Qed.

End Observe.

(** ** Create and Delete *)

Section CreateDelete.
Context `{Clients} {W : Type} `{!World W}.
Implicit Types (c : cloudsqlExternal) (cr : CloudsqlInstance) (w : W).
Implicit Types (nc : networkExternal) (ncr : Network).

(** C2 (amended). A Create of the database controller whose insert the
    provider answers with "already exists" returns no error; so a Create
    that succeeds followed by a Create that is answered "already exists"
    both return no error. A Create of the network controller returns every
    error of the provider, "already exists" included, as it is. *)
Theorem create_already_exists c cr nc ncr w e1 w1 e2 w2 :
  (db_Insert (projectID c)
             (GenerateDatabaseInstance (ForProvider (Spec cr)) (GetExternalName cr)) w
     = (e1, w1) →
   gcp_IsErrorAlreadyExists e1 = true ∨ e1 = None →
   (run (cloudsqlCreate c (MCloudsql cr)) w).1 = (MCloudsql cr, None) ∧
   (run (cloudsqlCreate c (MCloudsql cr)) w).2.1 = w1 ∧
   (db_Insert (projectID c)
              (GenerateDatabaseInstance (ForProvider (Spec cr)) (GetExternalName cr)) w1
      = (e2, w2) →
    gcp_IsErrorAlreadyExists e2 = true →
    (run (cloudsqlCreate c (MCloudsql cr)) w1).1 = (MCloudsql cr, None)))
  ∧
  (net_Insert (net_projectID nc) (GenerateNetwork (net_GCPNetworkSpec ncr)) w = (e1, w1) →
   (run (networkCreate nc (MNetwork ncr)) w).1 = (MNetwork ncr, e1)).
Proof.
  split.
  - intros Hins He1.
    assert (∀ w e w', db_Insert (projectID c)
              (GenerateDatabaseInstance (ForProvider (Spec cr)) (GetExternalName cr)) w
              = (e, w') →
            gcp_IsErrorAlreadyExists e = true ∨ e = None →
            run (cloudsqlCreate c (MCloudsql cr)) w
            = (MCloudsql cr, None,
               (w', [CallDbInsert (projectID c)
                       (GenerateDatabaseInstance (ForProvider (Spec cr))
                                                 (GetExternalName cr))]))) as Hone.
    { intros v e v' Hv He. unfold cloudsqlCreate. exec. unfold GetExternalName in *.
      rewrite Hv. unfold Ignore. destruct He as [->| ->]; [done|].
      by destruct (gcp_IsErrorAlreadyExists None). }
    rewrite (Hone _ _ _ Hins He1). split; [done|]. split; [done|].
    intros Hins2 He2. by rewrite (Hone _ _ _ Hins2 (or_introl He2)).
  - intros Hins. unfold networkCreate. exec. rewrite Hins. by destruct e1.
Qed.

(** C8. When the provider answers a delete with "not found", Delete of
    either controller returns no error; any other failure of the provider
    is returned as an error: wrapped by the database controller, as it is
    by the network controller. *)
Theorem delete_not_found c cr nc ncr w e w1 :
  (db_Delete (projectID c) (GetExternalName cr) w = (e, w1) →
   (gcp_IsErrorNotFound e = true →
      (run (cloudsqlDelete c (MCloudsql cr)) w).1 = (MCloudsql cr, None)) ∧
   (∀ x, e = Some x → gcp_IsErrorNotFound e = false →
      (run (cloudsqlDelete c (MCloudsql cr)) w).1
      = (MCloudsql cr, Some (ErrWrap x Msg.errDeleteFailed))))
  ∧
  (net_Delete (net_projectID nc) (NetworkName (net_GCPNetworkSpec ncr)) w = (e, w1) →
   (clients_IsErrorNotFound e = true →
      (run (networkDelete nc (MNetwork ncr)) w).1 = (MNetwork ncr, None)) ∧
   (∀ x, e = Some x → clients_IsErrorNotFound e = false →
      (run (networkDelete nc (MNetwork ncr)) w).1 = (MNetwork ncr, Some x))).
Proof.
  split; intros Hdel; split.
  - intros Hnf. unfold cloudsqlDelete. exec. unfold GetExternalName in *.
    rewrite Hdel. by rewrite Hnf.
  - intros x -> Hnf. unfold cloudsqlDelete. exec. unfold GetExternalName in *.
    rewrite Hdel. by rewrite Hnf.
  - intros Hnf. unfold networkDelete. exec. rewrite Hdel. by rewrite Hnf.
  - intros x -> Hnf. unfold networkDelete. exec. rewrite Hdel. by rewrite Hnf.
Qed.

(** X5. Create and Delete of the database controller make exactly one
    provider call (the insert of the instance generated from the spec
    under the external name, the delete by external name) and leave the
    record alone. Create returns no error exactly when the provider
    answered without error or with "already exists", Delete exactly when
    it answered without error or with "not found"; any error they return
    is the provider's, wrapped with the insert or the delete prefix. *)
Theorem database_create_delete_outcome c cr w e w1 :
  (db_Insert (projectID c)
             (GenerateDatabaseInstance (ForProvider (Spec cr)) (GetExternalName cr)) w
   = (e, w1) →
   ∃ err,
     run (cloudsqlCreate c (MCloudsql cr)) w
     = (MCloudsql cr, err,
        (w1, [CallDbInsert (projectID c)
                (GenerateDatabaseInstance (ForProvider (Spec cr)) (GetExternalName cr))])) ∧
     (err = None ↔ e = None ∨ gcp_IsErrorAlreadyExists e = true) ∧
     (∀ x, err = Some x → ∃ y, e = Some y ∧ x = ErrWrap y Msg.errInsertFailed))
  ∧
  (db_Delete (projectID c) (GetExternalName cr) w = (e, w1) →
   ∃ err,
     run (cloudsqlDelete c (MCloudsql cr)) w
     = (MCloudsql cr, err, (w1, [CallDbDelete (projectID c) (GetExternalName cr)])) ∧
     (err = None ↔ e = None ∨ gcp_IsErrorNotFound e = true) ∧
     (∀ x, err = Some x → ∃ y, e = Some y ∧ x = ErrWrap y Msg.errDeleteFailed)).
Proof.
  split; intros Hcall.
  - unfold cloudsqlCreate. exec. unfold GetExternalName in *. rewrite Hcall.
    unfold Ignore. eexists. split; [reflexivity|].
    destruct (gcp_IsErrorAlreadyExists e) eqn:Hex; destruct e as [y|]; simpl;
      (split; [split; [by auto|by intros [?|?]]|]); intros x Hx; simplify_eq; eauto.
  - unfold cloudsqlDelete. exec. unfold GetExternalName in *. rewrite Hcall.
    destruct (gcp_IsErrorNotFound e) eqn:Hnf; destruct e as [y|]; simpl;
      eexists; (split; [reflexivity|]);
      (split; [split; [by auto|by intros [?|?]]|]); intros x Hx; simplify_eq; eauto.
Qed.

(** X6. Create, Update and Delete of the network controller make exactly
    one provider call each and leave the record alone; Create and Update
    submit the same network, generated from the spec, and return the
    provider's answer as it is; Delete returns no error exactly when the
    provider answered without error or with "not found", and otherwise
    the provider's error as it is. *)
Theorem network_write_outcome (nc : networkExternal) (ncr : Network) w e w1 :
  (net_Insert (net_projectID nc) (GenerateNetwork (net_GCPNetworkSpec ncr)) w = (e, w1) →
   run (networkCreate nc (MNetwork ncr)) w
   = (MNetwork ncr, e,
      (w1, [CallNetInsert (net_projectID nc) (GenerateNetwork (net_GCPNetworkSpec ncr))])))
  ∧
  (net_Patch (net_projectID nc) (NetworkName (net_GCPNetworkSpec ncr))
             (GenerateNetwork (net_GCPNetworkSpec ncr)) w = (e, w1) →
   run (networkUpdate nc (MNetwork ncr)) w
   = (MNetwork ncr, ExternalUpdate_zero, e,
      (w1, [CallNetPatch (net_projectID nc) (NetworkName (net_GCPNetworkSpec ncr))
              (GenerateNetwork (net_GCPNetworkSpec ncr))])))
  ∧
  (net_Delete (net_projectID nc) (NetworkName (net_GCPNetworkSpec ncr)) w = (e, w1) →
   ∃ err,
     run (networkDelete nc (MNetwork ncr)) w
     = (MNetwork ncr, err,
        (w1, [CallNetDelete (net_projectID nc) (NetworkName (net_GCPNetworkSpec ncr))])) ∧
     (err = None ↔ e = None ∨ clients_IsErrorNotFound e = true) ∧
     (∀ x, err = Some x → e = Some x)).
Proof.
  split; [|split]; intros Hcall.
  - unfold networkCreate. exec. rewrite Hcall. by destruct e.
  - unfold networkUpdate. exec. rewrite Hcall. by destruct e.
  - unfold networkDelete. exec. rewrite Hcall.
    destruct (clients_IsErrorNotFound e) eqn:Hnf; destruct e as [y|]; simpl;
      eexists; (split; [reflexivity|]);
      (split; [split; [by auto|by intros [?|?]]|]); intros x Hx; by simplify_eq.
Qed.

End CreateDelete.

(** ** Update and the rotation of the root credentials *)

Section Update.
Context `{Clients} {W : Type} `{!World W}.
Implicit Types (c : cloudsqlExternal) (cr : CloudsqlInstance) (w : W) (log : list Call).

(** Unfolds one run of [updateRootCredentials], in the goal, into its
    paths, and closes each path with [finish]. *)
Ltac rotation_paths finish :=
  unfold updateRootCredentials; exec;
  match goal with
  | |- context [user_List ?p ?n ?w] =>
      destruct (user_List p n w) as [[users|e] w1]; simpl; [|solve [finish]];
      match goal with
      | |- context [find ?f users] =>
          destruct (find f users) as [root|]; simpl; [|solve [finish]]
      end
  end;
  rewrite getConnectionDetails_frame;
  match goal with
  | |- context [run (getConnectionDetails ?c ?cr) ?w] =>
      let Hcalls := fresh "Hcalls" in
      pose proof (getConnectionDetails_calls c cr w) as Hcalls;
      destruct (run (getConnectionDetails c cr) w) as [[conn [ec|]] [w2 l2]];
      simpl in Hcalls |- *; subst l2; [solve [finish]|]
  end;
  case_bool_decide; simpl;
  [match goal with
   | |- context [GeneratePassword ?n ?w] =>
       destruct (GeneratePassword n w) as [[pw|eg] w3]; simpl; [|solve [finish]]
   end|];
  match goal with
  | |- context [user_Update ?p ?i ?n ?h ?u ?w] =>
      destruct (user_Update p i n h u w) as [eu w4]; simpl; solve [finish]
  end.

(** [base64.StdEncoding.EncodedLen]: four characters for every three
    bytes, the last group padded. *)
Lemma EncodeToString_length (src : bytes) :
  slen (EncodeToString src) = 4 * ((len src + 2) / 3).
Proof.
  unfold slen, len.
  induction src as [src IH] using (induction_ltof1 _ (@length byte)).
  unfold ltof in IH.
  destruct src as [|a [|b [|d rest]]]; [reflexivity..|].
  cbn [EncodeToString String.length length].
  rewrite !Nat2Z.inj_succ, (IH rest) by (simpl; lia).
  Z.div_mod_to_equations. lia.
Qed.

(** A generated password is the encoding of a buffer of the length asked
    for, and so at least that long. *)
Lemma GeneratePassword_length (n : Z) w (p : string) w' :
  GeneratePassword n w = (Ok p, w') →
  slen p = 4 * ((Z.max 0 n + 2) / 3) ∧ n ≤ slen p.
Proof.
  unfold GeneratePassword.
  destruct (rand_Read n w) as [[written [e|]] v]; [done|].
  intros [= <- <-].
  rewrite EncodeToString_length. unfold len. rewrite length_resize.
  rewrite ZifyInst.of_nat_to_nat_eq. split; [done|].
  Z.div_mod_to_equations. lia.
Qed.

(** The rotation never submits a patch. *)
Lemma updateRootCredentials_no_patch c cr w :
  count isDbPatch (run (updateRootCredentials c cr) w).2.2 = 0%nat.
Proof. rotation_paths ltac:(done). Qed.

(** Whatever the world answers, a rotation generates at most one password
    and pushes at most one. *)
Lemma updateRootCredentials_at_most_once c cr w :
  (count isGeneratePassword (run (updateRootCredentials c cr) w).2.2 ≤ 1)%nat ∧
  (count isUserUpdate (run (updateRootCredentials c cr) w).2.2 ≤ 1)%nat.
Proof. rotation_paths ltac:(unfold count; simpl; lia). Qed.

(** C6. When the rotation of the root credentials fails, Update of the
    database controller returns that error wrapped with the
    root-credential-update prefix and has submitted no patch; in
    particular when the account list holds no user with the root user
    name, where the rotation fails with a not-found error naming the
    user and Update stops after the list call. *)
Theorem update_rotation_failure c cr w :
  (∀ conn e w' log,
     run (updateRootCredentials c cr) w = (conn, Some e, (w', log)) →
     run (cloudsqlUpdate c (MCloudsql cr)) w
     = (MCloudsql cr, ExternalUpdate_zero, Some (ErrWrap e Msg.errUpdateRootFailed),
        (w', log))
     ∧ count isDbPatch log = 0%nat)
  ∧
  (∀ users w1,
     user_List (projectID c) (GetExternalName cr) w = (Ok users, w1) →
     find (fun val => bool_decide (user_Name val = DatabaseUserName cr)) users = None →
     run (cloudsqlUpdate c (MCloudsql cr)) w
     = (MCloudsql cr, ExternalUpdate_zero,
        Some (ErrWrap (GoogleapiError StatusNotFound
                         ("user: " +:+ DatabaseUserName cr +:+ " is not found"))
                      Msg.errUpdateRootFailed),
        (w1, [CallUserList (projectID c) (GetExternalName cr)]))).
Proof.
  split.
  - intros conn e w' log Hrun. split.
    + unfold cloudsqlUpdate. unfold run, bind in *. by rewrite Hrun.
    + pose proof (updateRootCredentials_no_patch c cr w) as Hno.
      by rewrite Hrun in Hno.
  - intros users w1 Hlist Hfind.
    unfold cloudsqlUpdate, updateRootCredentials. exec. unfold GetExternalName in *.
    rewrite Hlist. simpl. by rewrite Hfind.
Qed.

(** C4 (amended). For every rotation of the root credentials that finds
    the root account and can read the connection secret: if the secret
    holds a non-empty password, the calls are the account list, the read of
    the secret and one account update that carries exactly that password,
    no password is generated, and the connection details keep it; if the
    password is empty or absent, the generator is called once, for a
    password of [PasswordLength]; when it fails nothing is pushed, and when
    it answers, its password is at least [PasswordLength] long, is staged
    into the connection details and is pushed by one account update. In
    either case at most one password is generated and at most one is
    pushed. *)
Theorem rotation_password c cr w users w1 root r w2 conn err w' log :
  user_List (projectID c) (GetExternalName cr) w = (Ok users, w1) →
  find (fun val => bool_decide (user_Name val = DatabaseUserName cr)) users = Some root →
  kube_GetSecret (connectionSecret cr) w1 = (r, w2) →
  secretReadable r →
  run (updateRootCredentials c cr) w = (conn, err, (w', log)) →
  let persisted := index (Data (secretRead r)) Key.Password in
  let list := CallUserList (projectID c) (GetExternalName cr) in
  let read := CallKubeGetSecret (connectionSecret cr) in
  let push password :=
    CallUserUpdate (projectID c) (GetExternalName cr) (user_Name root) (user_Host root)
                   {| user_Name := user_Name root; user_Host := user_Host root;
                      user_Password := password |} in
  (persisted ≠ [] →
     log = [list; read; push (string_of persisted)] ∧
     bytes_of (string_of persisted) = persisted ∧
     conn !! Key.Password = Some persisted)
  ∧
  (persisted = [] →
     ∀ g w3, GeneratePassword PasswordLength w2 = (g, w3) →
       match g with
       | Err e =>
           log = [list; read; CallGeneratePassword PasswordLength] ∧ err = Some e
       | Ok password =>
           log = [list; read; CallGeneratePassword PasswordLength; push password] ∧
           conn !! Key.Password = Some (bytes_of password) ∧
           PasswordLength ≤ slen password
       end)
  ∧
  ((count isGeneratePassword log ≤ 1)%nat ∧ (count isUserUpdate log ≤ 1)%nat).
Proof.
  intros Hlist Hfind Hget Hr Hrun persisted list read push.
  pose proof (updateRootCredentials_at_most_once c cr w) as Honce.
  rewrite Hrun in Honce. simpl in Honce.
  destruct (getConnectionDetails_run c cr w1 r w2 Hget) as (m & em & Hconn & Hok & _).
  destruct (Hok Hr) as [-> Hm].
  pose proof (getConnectionDetails_password c cr w1 r w2 m None _ Hget Hr Hconn) as Hpw.
  fold persisted in Hpw.
  unfold updateRootCredentials in Hrun. unfold run, bind, call, ret in Hrun.
  simpl in Hrun. unfold GetExternalName in *. rewrite Hlist in Hrun. simpl in Hrun.
  rewrite Hfind in Hrun. rewrite getConnectionDetails_frame, Hconn in Hrun.
  simpl in Hrun. rewrite Hpw, slen_string_of in Hrun.
  split; [|split; [|exact Honce]].
  - intros Hne.
    rewrite bool_decide_eq_false_2 in Hrun by (rewrite len_zero; done).
    simpl in Hrun.
    destruct (user_Update _ _ _ _ _ w2) as [eu w4]. injection Hrun as <- <- <- <-.
    split; [done|]. split; [apply bytes_of_string_of|].
    unfold index in Hpw. destruct (m !! Key.Password) as [b|]; simpl in Hpw; congruence.
  - intros Hempty g w3 Hgen.
    rewrite bool_decide_eq_true_2 in Hrun by (rewrite len_zero; done).
    simpl in Hrun. rewrite Hgen in Hrun. destruct g as [password|e]; simpl in Hrun.
    + destruct (user_Update _ _ _ _ _ w3) as [eu w4]. injection Hrun as <- <- <- <-.
      split; [done|]. split; [by rewrite lookup_insert_eq|].
      by apply (GeneratePassword_length _ _ _ _ Hgen).
    + by injection Hrun as <- <- <- <-.
Qed.

Lemma count_app (p : Call → bool) (l1 l2 : list Call) :
  count p (l1 ++ l2) = (count p l1 + count p l2)%nat.
Proof. unfold count. by rewrite filter_app, length_app. Qed.

(** A rotation that returns no error has pushed exactly one password. *)
Lemma updateRootCredentials_success_pushes c cr w :
  ∀ m v l, run (updateRootCredentials c cr) w = (m, None, (v, l)) →
           count isUserUpdate l = 1%nat.
Proof. rotation_paths ltac:(intros; simplify_eq; done). Qed.

(** X7. When the rotation succeeds, Update submits exactly one patch, as
    its last call and so after the password was pushed: the patch of the
    instance generated from the spec, keyed by the external name. The
    connection details of the rotation are returned also when the patch
    fails, in which case the error is the provider's wrapped with the
    patch prefix; the record is not changed. *)
Theorem update_patches_after_rotation c cr w conn w1 log1 e w2 :
  run (updateRootCredentials c cr) w = (conn, None, (w1, log1)) →
  db_Patch (projectID c) (GetExternalName cr)
           (GenerateDatabaseInstance (ForProvider (Spec cr)) (GetExternalName cr)) w1
  = (e, w2) →
  run (cloudsqlUpdate c (MCloudsql cr)) w
  = (MCloudsql cr, {| upd_ConnectionDetails := conn |}, Wrap e Msg.errPatchFailed,
     (w2, log1 ++ [CallDbPatch (projectID c) (GetExternalName cr)
                     (GenerateDatabaseInstance (ForProvider (Spec cr))
                                               (GetExternalName cr))])) ∧
  count isDbPatch
        (log1 ++ [CallDbPatch (projectID c) (GetExternalName cr)
                    (GenerateDatabaseInstance (ForProvider (Spec cr))
                                              (GetExternalName cr))]) = 1%nat ∧
  count isUserUpdate log1 = 1%nat.
Proof.
  intros Hrot Hpatch. split; [|split].
  - unfold cloudsqlUpdate. unfold run, bind, call, ret in *. rewrite Hrot. simpl.
    unfold GetExternalName in *. by rewrite Hpatch.
  - pose proof (updateRootCredentials_no_patch c cr w) as Hno.
    rewrite Hrot in Hno. simpl in Hno. rewrite count_app, Hno. reflexivity.
  - by eapply updateRootCredentials_success_pushes.
Qed.

(** Every account update a rotation submits carries, as password, the
    password of the connection details the rotation returns, and addresses
    the account by the name and host of the user it sends. *)
Lemma updateRootCredentials_pushed c cr w :
  ∀ p n nm h u,
    In (CallUserUpdate p n nm h u) (run (updateRootCredentials c cr) w).2.2 →
    user_Password u
    = string_of (index (run (updateRootCredentials c cr) w).1.1 Key.Password) ∧
    nm = user_Name u ∧ h = user_Host u ∧ p = projectID c ∧ n = GetExternalName cr.
Proof.
  rotation_paths ltac:(
    intros ? ? ? ? ? Hin; simpl in Hin;
    repeat match goal with
           | H : _ ∨ _ |- _ => destruct H
           | H : False |- _ => destruct H
           end;
    simplify_eq; simpl; unfold index; rewrite ?lookup_insert_eq; simpl;
    rewrite ?string_of_bytes_of; done).
Qed.

(** A rotation that finds the root account and a non-empty persisted
    password: the list, the read and one push of that password. *)
Lemma updateRootCredentials_reuse c cr w users w1 root r w2 :
  user_List (projectID c) (GetExternalName cr) w = (Ok users, w1) →
  find (fun val => bool_decide (user_Name val = DatabaseUserName cr)) users = Some root →
  kube_GetSecret (connectionSecret cr) w1 = (r, w2) →
  secretReadable r →
  index (Data (secretRead r)) Key.Password ≠ [] →
  ∃ m eu w4,
    run (updateRootCredentials c cr) w
    = (m, eu,
       (w4, [CallUserList (projectID c) (GetExternalName cr);
             CallKubeGetSecret (connectionSecret cr);
             CallUserUpdate (projectID c) (GetExternalName cr)
               (user_Name root) (user_Host root)
               {| user_Name := user_Name root; user_Host := user_Host root;
                  user_Password :=
                    string_of (index (Data (secretRead r)) Key.Password) |}])) ∧
    index m Key.Password = index (Data (secretRead r)) Key.Password.
Proof.
  intros Hlist Hfind Hget Hr Hne.
  destruct (getConnectionDetails_run c cr w1 r w2 Hget) as (m & em & Hconn & Hok & _).
  destruct (Hok Hr) as [-> Hm].
  pose proof (getConnectionDetails_password c cr w1 r w2 m None _ Hget Hr Hconn) as Hpw.
  unfold updateRootCredentials. unfold run, bind, call, ret in *. simpl.
  unfold GetExternalName in *. rewrite Hlist. simpl. rewrite Hfind.
  rewrite getConnectionDetails_frame. unfold run. rewrite Hconn. simpl.
  rewrite Hpw, slen_string_of.
  rewrite bool_decide_eq_false_2 by (rewrite len_zero; done). simpl.
  destruct (user_Update _ _ _ _ _ w2) as [eu w4]. by eexists _, _, _.
Qed.

(** X8. What a rotation pushes is what it publishes: the password of every
    account update it submits is, byte for byte, the password of the
    connection details it returns, also when the update itself fails; and
    the update addresses the account by the name and host of the user it
    sends, in the controller's project and the instance of the external
    name. *)
Theorem rotation_pushes_published_password c cr w conn err w' log p n nm h u :
  run (updateRootCredentials c cr) w = (conn, err, (w', log)) →
  In (CallUserUpdate p n nm h u) log →
  bytes_of (user_Password u) = index conn Key.Password ∧
  nm = user_Name u ∧ h = user_Host u ∧ p = projectID c ∧ n = GetExternalName cr.
Proof.
  intros Hrun Hin.
  pose proof (updateRootCredentials_pushed c cr w p n nm h u) as Hpushed.
  rewrite Hrun in Hpushed. destruct (Hpushed Hin) as (Hpw & ? & ? & ? & ?).
  repeat split; try done. simpl in Hpw. by rewrite Hpw, bytes_of_string_of.
Qed.

(** X9. The password survives a round trip through the connection secret.
    Suppose a rotation pushed a non-empty password, and that at the next
    rotation, whenever the account list is served, the connection secret
    can be read and holds the password of the connection details the first
    rotation returned. Then the next rotation generates no password and
    every account update it submits carries the same password. If moreover
    the account list is served and holds an account of the root user name,
    the next rotation makes exactly the list, the read of the secret and
    one update of that account with that password, and returns the same
    password. *)
Theorem rotation_reuses_pushed_password
        c cr w conn1 err1 w1' log1 p n nm h u1 v conn2 err2 v' log2 :
  run (updateRootCredentials c cr) w = (conn1, err1, (w1', log1)) →
  In (CallUserUpdate p n nm h u1) log1 →
  user_Password u1 ≠ ""%string →
  (∀ users v1,
     user_List (projectID c) (GetExternalName cr) v = (Ok users, v1) →
     secretReadable (kube_GetSecret (connectionSecret cr) v1).1 ∧
     index (Data (secretRead (kube_GetSecret (connectionSecret cr) v1).1)) Key.Password
     = index conn1 Key.Password) →
  run (updateRootCredentials c cr) v = (conn2, err2, (v', log2)) →
  count isGeneratePassword log2 = 0%nat ∧
  (∀ p' n' nm' h' u2,
     In (CallUserUpdate p' n' nm' h' u2) log2 → user_Password u2 = user_Password u1) ∧
  (∀ users v1 root,
     user_List (projectID c) (GetExternalName cr) v = (Ok users, v1) →
     find (fun val => bool_decide (user_Name val = DatabaseUserName cr)) users = Some root →
     log2 = [CallUserList (projectID c) (GetExternalName cr);
             CallKubeGetSecret (connectionSecret cr);
             CallUserUpdate (projectID c) (GetExternalName cr)
               (user_Name root) (user_Host root)
               {| user_Name := user_Name root; user_Host := user_Host root;
                  user_Password := user_Password u1 |}] ∧
     index conn2 Key.Password = index conn1 Key.Password).
Proof.
  intros Hrun1 Hin Hne Hsecret Hrun2.
  pose proof (updateRootCredentials_pushed c cr w p n nm h u1) as Hpushed.
  rewrite Hrun1 in Hpushed. destruct (Hpushed Hin) as (Hpw & _). simpl in Hpw.
  assert (∀ users v1 root,
            user_List (projectID c) (GetExternalName cr) v = (Ok users, v1) →
            find (fun val => bool_decide (user_Name val = DatabaseUserName cr)) users
            = Some root →
            log2 = [CallUserList (projectID c) (GetExternalName cr);
                    CallKubeGetSecret (connectionSecret cr);
                    CallUserUpdate (projectID c) (GetExternalName cr)
                      (user_Name root) (user_Host root)
                      {| user_Name := user_Name root; user_Host := user_Host root;
                         user_Password := user_Password u1 |}] ∧
            index conn2 Key.Password = index conn1 Key.Password) as Hfound.
  { intros users v1 root Hlist Hfind.
    destruct (Hsecret users v1 Hlist) as [Hr Hsame].
    destruct (kube_GetSecret (connectionSecret cr) v1) as [r v2] eqn:Hget.
    simpl in Hr, Hsame.
    assert (index (Data (secretRead r)) Key.Password ≠ []) as Hpersisted.
    { rewrite Hsame. intros Hnil. rewrite Hnil in Hpw. by apply Hne. }
    destruct (updateRootCredentials_reuse c cr v users v1 root r v2 Hlist Hfind Hget Hr
                Hpersisted) as (m & eu & w4 & Hrun & Hm).
    rewrite Hrun2 in Hrun. injection Hrun as -> -> -> ->.
    rewrite Hsame, <- Hpw in *. by split. }
  assert (log2 = [CallUserList (projectID c) (GetExternalName cr)]
          ∨ ∃ root,
              log2 = [CallUserList (projectID c) (GetExternalName cr);
                      CallKubeGetSecret (connectionSecret cr);
                      CallUserUpdate (projectID c) (GetExternalName cr)
                        (user_Name root) (user_Host root)
                        {| user_Name := user_Name root; user_Host := user_Host root;
                           user_Password := user_Password u1 |}]) as Hshape.
  { destruct (user_List (projectID c) (GetExternalName cr) v) as [[users|e] v1] eqn:Hlist.
    - destruct (find (fun val => bool_decide (user_Name val = DatabaseUserName cr)) users)
        as [root|] eqn:Hfind.
      + right. exists root. by destruct (Hfound users v1 root eq_refl Hfind).
      + left. unfold updateRootCredentials in Hrun2.
        unfold run, bind, call, ret in Hrun2. simpl in Hrun2.
        rewrite Hlist in Hrun2. simpl in Hrun2. rewrite Hfind in Hrun2.
        by injection Hrun2 as <- <- <- <-.
    - left. unfold updateRootCredentials in Hrun2.
      unfold run, bind, call, ret in Hrun2. simpl in Hrun2.
      rewrite Hlist in Hrun2. simpl in Hrun2.
      by injection Hrun2 as <- <- <- <-. }
  split; [|split; [|exact Hfound]].
  - by destruct Hshape as [->|[root ->]].
  - intros p' n' nm' h' u2 Hin2.
    destruct Hshape as [->|[root ->]]; simpl in Hin2;
      repeat match goal with
             | H : _ ∨ _ |- _ => destruct H
             | H : False |- _ => destruct H
             end; by simplify_eq.
Qed.

(** X10. The rotation updates the first account, in the order of the
    provider's list, whose name is the root user name: every account
    update it submits addresses that account by its name and host and
    sends it back with only the password changed. *)
Theorem rotation_targets_first_match c cr w l1 u l2 w1 conn err w' log p n nm h x :
  user_List (projectID c) (GetExternalName cr) w = (Ok (l1 ++ u :: l2), w1) →
  Forall (fun val => user_Name val ≠ DatabaseUserName cr) l1 →
  user_Name u = DatabaseUserName cr →
  run (updateRootCredentials c cr) w = (conn, err, (w', log)) →
  In (CallUserUpdate p n nm h x) log →
  nm = user_Name u ∧ h = user_Host u ∧
  user_Name x = user_Name u ∧ user_Host x = user_Host u.
Proof.
  intros Hlist Hl1 Hu Hrun Hin.
  assert (find (fun val => bool_decide (user_Name val = DatabaseUserName cr))
               (l1 ++ u :: l2) = Some u) as Hfind.
  { clear Hlist. induction Hl1 as [|y l Hy _ IH]; simpl.
    - by rewrite bool_decide_eq_true_2.
    - by rewrite bool_decide_eq_false_2. }
  unfold updateRootCredentials in Hrun. unfold run, bind, call, ret in Hrun.
  simpl in Hrun. unfold GetExternalName in *. rewrite Hlist in Hrun. simpl in Hrun.
  rewrite Hfind in Hrun. rewrite getConnectionDetails_frame in Hrun.
  pose proof (getConnectionDetails_calls c cr w1) as Hcalls.
  destruct (run (getConnectionDetails c cr) w1) as [[gm [ge|]] [w2 lg]];
    simpl in Hcalls, Hrun; subst lg.
  - simplify_eq. simpl in Hin.
    repeat match goal with
           | H : _ ∨ _ |- _ => destruct H
           | H : False |- _ => destruct H
           end; by simplify_eq.
  - destruct (bool_decide _) in Hrun; simpl in Hrun.
    + destruct (GeneratePassword _ w2) as [[pw|eg] w3]; simpl in Hrun.
      * destruct (user_Update _ _ _ _ _ w3) as [eu w4]. simplify_eq.
        simpl in Hin.
        repeat match goal with
               | H : _ ∨ _ |- _ => destruct H
               | H : False |- _ => destruct H
               end; by simplify_eq.
      * simplify_eq. simpl in Hin.
        repeat match goal with
               | H : _ ∨ _ |- _ => destruct H
               | H : False |- _ => destruct H
               end; by simplify_eq.
    + destruct (user_Update _ _ _ _ _ w2) as [eu w4]. simplify_eq.
      simpl in Hin.
      repeat match goal with
             | H : _ ∨ _ |- _ => destruct H
             | H : False |- _ => destruct H
             end; by simplify_eq.
Qed.

End Update.

(** ** Resources of another kind *)

Section WrongKind.
Context `{Clients} {W : Type} `{!World W}.

(** C10. Each of Connect, Observe, Create, Update and Delete of the two
    controllers, when handed a managed resource that is not of the
    controller's kind, returns the controller's "managed resource is not
    a ..." error, makes no call at all and leaves the resource and the
    world as they were. *)
Theorem wrong_kind_rejected (mg : Managed) (c : cloudsqlExternal) (nc : networkExternal)
        (w : W) :
  ((∀ cr, mg ≠ MCloudsql cr) →
   run (cloudsqlConnect mg) w = (None, Some (ErrNew Msg.errNotCloudsql), (w, [])) ∧
   run (cloudsqlObserve c mg) w
   = (mg, ExternalObservation_zero, Some (ErrNew Msg.errNotCloudsql), (w, [])) ∧
   run (cloudsqlCreate c mg) w = (mg, Some (ErrNew Msg.errNotCloudsql), (w, [])) ∧
   run (cloudsqlUpdate c mg) w
   = (mg, ExternalUpdate_zero, Some (ErrNew Msg.errNotCloudsql), (w, [])) ∧
   run (cloudsqlDelete c mg) w = (mg, Some (ErrNew Msg.errNotCloudsql), (w, [])))
  ∧
  ((∀ cr, mg ≠ MNetwork cr) →
   run (networkConnect mg) w = (None, Some (ErrNew Msg.errNotNetwork), (w, [])) ∧
   run (networkObserve nc mg) w
   = (mg, ExternalObservation_zero, Some (ErrNew Msg.errNotNetwork), (w, [])) ∧
   run (networkCreate nc mg) w = (mg, Some (ErrNew Msg.errNotNetwork), (w, [])) ∧
   run (networkUpdate nc mg) w
   = (mg, ExternalUpdate_zero, Some (ErrNew Msg.errNotNetwork), (w, [])) ∧
   run (networkDelete nc mg) w = (mg, Some (ErrNew Msg.errNotNetwork), (w, []))).
Proof.
  split; intros Hkind; destruct mg as [cr|cr|kind]; try (by destruct (Hkind cr));
    repeat split.
Qed.

End WrongKind.

(** ** Late initialization *)

(** C9. The late-initialization pass leaves every field that is set in the
    spec as it is, also when the observed state carries another value for
    it; gives every field that is unset in the spec and has a value in the
    observed state that value; and leaves a field unset that neither has. *)
Theorem late_initialization_enriches {V : Type} (S O : gmap string V) (f : string) :
  (∀ v, S !! f = Some v → LateInit.LateInitializeSpec S O !! f = Some v) ∧
  (∀ v, S !! f = None → O !! f = Some v → LateInit.LateInitializeSpec S O !! f = Some v) ∧
  (S !! f = None → O !! f = None → LateInit.LateInitializeSpec S O !! f = None).
Proof.
  unfold LateInit.LateInitializeSpec. rewrite lookup_merge.
  repeat split.
  - by intros v ->.
  - by intros v -> ->.
  - by intros -> ->.
Qed.

(** * Further properties *)

(** ** Which address ends up under which key *)

Section AddressRules.
Implicit Types (m : gmap string bytes) (ip : IPMapping) (ips : list IPMapping).

Lemma addressesOf_snoc t ips ip :
  addressesOf t (ips ++ [ip])
  = addressesOf t ips ++ (if bool_decide (ip_Type ip = t) then [IPAddress ip] else []).
Proof.
  unfold addressesOf. rewrite filter_app, map_app. f_equal.
  rewrite filter_cons, filter_nil. case_bool_decide; by case_decide.
Qed.

Lemma addAddress_private_key m ip :
  addAddress m ip !! Key.PrivateIP
  = if bool_decide (ip_Type ip = PrivateIPType) then Some (bytes_of (IPAddress ip))
    else m !! Key.PrivateIP.
Proof.
  unfold addAddress. repeat case_bool_decide; simplify_map_eq; try done; congruence.
Qed.

Lemma addAddress_public_key m ip :
  addAddress m ip !! Key.PublicIP
  = if bool_decide (ip_Type ip = PublicIPType) then Some (bytes_of (IPAddress ip))
    else m !! Key.PublicIP.
Proof.
  unfold addAddress. repeat case_bool_decide; simplify_map_eq; try done; congruence.
Qed.

Lemma fold_addAddress_last_private ips m :
  fold_left addAddress ips m !! Key.PrivateIP
  = match last (addressesOf PrivateIPType ips) with
    | Some a => Some (bytes_of a)
    | None => m !! Key.PrivateIP
    end.
Proof.
  induction ips as [|ip ips IH] using rev_ind; [done|].
  rewrite fold_left_app, addressesOf_snoc. simpl. rewrite addAddress_private_key.
  case_bool_decide.
  - by rewrite last_snoc.
  - by rewrite app_nil_r.
Qed.

Lemma fold_addAddress_last_public ips m :
  fold_left addAddress ips m !! Key.PublicIP
  = match last (addressesOf PublicIPType ips) with
    | Some a => Some (bytes_of a)
    | None => m !! Key.PublicIP
    end.
Proof.
  induction ips as [|ip ips IH] using rev_ind; [done|].
  rewrite fold_left_app, addressesOf_snoc. simpl. rewrite addAddress_public_key.
  case_bool_decide.
  - by rewrite last_snoc.
  - by rewrite app_nil_r.
Qed.

(** An address that is not private leaves a non-empty endpoint alone. *)
Lemma addAddress_keeps_endpoint m ip b :
  ip_Type ip ≠ PrivateIPType → m !! Key.Endpoint = Some b → len b ≠ 0 →
  addAddress m ip !! Key.Endpoint = Some b.
Proof.
  intros Ht Hm Hb. unfold addAddress.
  rewrite (bool_decide_eq_false_2 (ip_Type ip = PrivateIPType)) by done.
  destruct (bool_decide (ip_Type ip = PublicIPType)); [|done].
  unfold index. rewrite lookup_insert_ne, Hm by done. simpl.
  rewrite bool_decide_eq_false_2 by done. by rewrite lookup_insert_ne.
Qed.

Lemma fold_addAddress_endpoint_private P ips m :
  last (addressesOf PrivateIPType ips) = Some P → P ≠ ""%string →
  fold_left addAddress ips m !! Key.Endpoint = Some (bytes_of P).
Proof.
  intros Hlast HP. revert Hlast.
  induction ips as [|ip ips IH] using rev_ind; [done|].
  rewrite fold_left_app, addressesOf_snoc. simpl.
  case_bool_decide as Ht.
  - rewrite last_snoc. intros [= <-]. unfold addAddress.
    rewrite (bool_decide_eq_true_2 (ip_Type ip = PrivateIPType)) by done.
    rewrite (bool_decide_eq_false_2 (ip_Type ip = PublicIPType)) by (rewrite Ht; done).
    by rewrite lookup_insert_eq.
  - rewrite app_nil_r. intros Hlast.
    apply addAddress_keeps_endpoint; [done|by apply IH|by apply bytes_of_nonempty].
Qed.

Lemma fold_addAddress_keeps_endpoint b ips : ∀ m,
  lacks PrivateIPType ips → m !! Key.Endpoint = Some b → len b ≠ 0 →
  fold_left addAddress ips m !! Key.Endpoint = Some b.
Proof.
  induction ips as [|ip ips IH]; intros m Hl Hm Hb; [done|].
  inversion Hl; subst. simpl. apply IH; [done| |done].
  by apply addAddress_keeps_endpoint.
Qed.

Lemma fold_addAddress_endpoint_public ips : ∀ m,
  lacks PrivateIPType ips → index m Key.Endpoint = [] →
  fold_left addAddress ips m !! Key.Endpoint
  = match find isUsablePublic ips with
    | Some ip => Some (bytes_of (IPAddress ip))
    | None => if seen PublicIPType ips then Some [] else m !! Key.Endpoint
    end.
Proof.
  induction ips as [|ip ips IH]; intros m Hl Hm; [done|].
  inversion Hl as [|? ? Hip Hips]; subst. simpl.
  unfold isUsablePublic at 1.
  destruct (bool_decide_reflect (ip_Type ip = PublicIPType)) as [Hpub|Hpub]; simpl.
  - assert (addAddress m ip !! Key.Endpoint = Some (bytes_of (IPAddress ip))) as Hadd.
    { unfold addAddress.
      rewrite (bool_decide_eq_false_2 (ip_Type ip = PrivateIPType)) by done.
      rewrite (bool_decide_eq_true_2 (ip_Type ip = PublicIPType)) by done.
      unfold index in *. rewrite lookup_insert_ne by done.
      rewrite Hm. rewrite bool_decide_eq_true_2 by done. by rewrite lookup_insert_eq. }
    destruct (bool_decide_reflect (IPAddress ip = ""%string)) as [Hempty|Hfull]; simpl.
    + rewrite IH; [|done|by unfold index; rewrite Hadd, Hempty].
      destruct (find isUsablePublic ips); [done|].
      rewrite Hadd, Hempty. by destruct (seen PublicIPType ips).
    + apply fold_addAddress_keeps_endpoint; [done..|by apply bytes_of_nonempty].
  - assert (addAddress m ip = m) as ->.
    { unfold addAddress.
      rewrite (bool_decide_eq_false_2 (ip_Type ip = PrivateIPType)) by done.
      by rewrite (bool_decide_eq_false_2 (ip_Type ip = PublicIPType)) by done. }
    by apply IH.
Qed.

(** The keys of the map stay among the five connection keys. *)
Lemma fold_addAddress_dom ips : ∀ m,
  dom m ⊆ connectionKeys → dom (fold_left addAddress ips m) ⊆ connectionKeys.
Proof.
  induction ips as [|ip ips IH]; intros m Hm; [done|].
  simpl. apply IH. unfold addAddress.
  assert (∀ k v (n : gmap string bytes),
            k ∈ connectionKeys → dom n ⊆ connectionKeys →
            dom (<[k:=v]> n) ⊆ connectionKeys) as Hins.
  { intros k v n Hk Hn. rewrite dom_insert. apply union_least; [|done].
    by apply singleton_subseteq_l. }
  assert (Key.Endpoint ∈ connectionKeys ∧ Key.PrivateIP ∈ connectionKeys
          ∧ Key.PublicIP ∈ connectionKeys) as (He & Hp & Hq).
  { repeat split; apply (bool_decide_unpack _); reflexivity. }
  repeat match goal with |- context [bool_decide ?P] => destruct (bool_decide P) end;
    repeat apply Hins; done.
Qed.

End AddressRules.

Section ConnectionDetailsRules.
Context `{Clients} {W : Type} `{!World W}.
Implicit Types (c : cloudsqlExternal) (cr : CloudsqlInstance) (w : W) (log : list Call).

(** The map [getConnectionDetails] returns when the secret can be read, as
    the loop over the addresses applied to the user name and password. *)
Lemma getConnectionDetails_readable c cr w m err w' log :
  run (getConnectionDetails c cr) w = (m, err, (w', log)) →
  secretReadable (kube_GetSecret (connectionSecret cr) w).1 →
  err = None ∧
  ∃ m0 : gmap string bytes,
    m = fold_left addAddress (IPAddresses (AtProvider (Status cr))) m0 ∧
    m0 !! Key.User = Some (bytes_of (DatabaseUserName cr)) ∧
    index m0 Key.Password
    = index (Data (secretRead (kube_GetSecret (connectionSecret cr) w).1)) Key.Password ∧
    m0 !! Key.Password ≠ Some [] ∧
    m0 !! Key.Endpoint = None ∧ m0 !! Key.PrivateIP = None ∧ m0 !! Key.PublicIP = None ∧
    dom m0 ⊆ connectionKeys.
Proof.
  intros Hrun Hr.
  destruct (kube_GetSecret (connectionSecret cr) w) as [r w1] eqn:Hget. simpl in Hr |- *.
  destruct (getConnectionDetails_run c cr w r w1 Hget) as (m' & err' & Hrun' & Hok & _).
  rewrite Hrun in Hrun'. injection Hrun' as -> -> _ _.
  destruct (Hok Hr) as [-> ->]. split; [done|].
  eexists. split; [reflexivity|].
  assert (Key.User ∈ connectionKeys ∧ Key.Password ∈ connectionKeys) as [Hu Hp].
  { split; apply (bool_decide_unpack _); reflexivity. }
  case_bool_decide as Hlen.
  - repeat split; try by simplify_map_eq.
    + rewrite lookup_insert_eq. intros [= Hnil]. rewrite Hnil in Hlen. by apply Hlen.
    + rewrite dom_insert, dom_singleton. apply union_least; by apply singleton_subseteq_l.
  - repeat split; try by simplify_map_eq.
    + unfold index at 1. rewrite lookup_singleton_ne by done. simpl.
      symmetry. apply len_zero. lia.
    + rewrite dom_singleton. by apply singleton_subseteq_l.
Qed.

(** X11. When several addresses of one type are reported, the last one in
    the provider's order is the one published: privateIP is the last
    private-type address and publicIP the last public-type address, and
    each key is missing exactly when no address of its type is reported. *)
Theorem connection_details_last_address_wins c cr w m err w' log :
  run (getConnectionDetails c cr) w = (m, err, (w', log)) →
  secretReadable (kube_GetSecret (connectionSecret cr) w).1 →
  m !! Key.PrivateIP
  = bytes_of <$> last (addressesOf PrivateIPType (IPAddresses (AtProvider (Status cr)))) ∧
  m !! Key.PublicIP
  = bytes_of <$> last (addressesOf PublicIPType (IPAddresses (AtProvider (Status cr)))).
Proof.
  intros Hrun Hr.
  destruct (getConnectionDetails_readable c cr w m err w' log Hrun Hr)
    as (_ & m0 & -> & _ & _ & _ & _ & Hp & Hq & _).
  rewrite fold_addAddress_last_private, fold_addAddress_last_public, Hp, Hq.
  split; by destruct (last _).
Qed.

(** X12. The endpoint follows the private address when there is one: if the
    last private-type address is not empty it is the endpoint, whatever
    public addresses are reported. Without a private-type address the
    endpoint is the first public-type address that is not empty (while
    publicIP is the last one); if every public-type address is empty the
    endpoint is the empty value, and without any public-type address there
    is no endpoint key. *)
Theorem connection_details_endpoint_rule c cr w m err w' log :
  run (getConnectionDetails c cr) w = (m, err, (w', log)) →
  secretReadable (kube_GetSecret (connectionSecret cr) w).1 →
  (∀ P, last (addressesOf PrivateIPType (IPAddresses (AtProvider (Status cr)))) = Some P →
        P ≠ ""%string → m !! Key.Endpoint = Some (bytes_of P))
  ∧
  (lacks PrivateIPType (IPAddresses (AtProvider (Status cr))) →
   m !! Key.Endpoint
   = match find isUsablePublic (IPAddresses (AtProvider (Status cr))) with
     | Some ip => Some (bytes_of (IPAddress ip))
     | None => if seen PublicIPType (IPAddresses (AtProvider (Status cr)))
               then Some [] else None
     end).
Proof.
  intros Hrun Hr.
  destruct (getConnectionDetails_readable c cr w m err w' log Hrun Hr)
    as (_ & m0 & -> & _ & _ & _ & He & _ & _ & _).
  split.
  - intros P Hlast HP. by apply fold_addAddress_endpoint_private.
  - intros Hlacks. rewrite fold_addAddress_endpoint_public; [|done|].
    + by rewrite He.
    + unfold index. by rewrite He.
Qed.

(** X13. The connection details hold the user name of the instance, hold
    the persisted password exactly when it is not empty (never an empty
    password), and hold no key besides user name, password, endpoint,
    privateIP and publicIP; a secret that is not found gives the same map
    as an empty one. *)
Theorem connection_details_keys c cr w m err w' log :
  run (getConnectionDetails c cr) w = (m, err, (w', log)) →
  secretReadable (kube_GetSecret (connectionSecret cr) w).1 →
  err = None ∧
  m !! Key.User = Some (bytes_of (DatabaseUserName cr)) ∧
  index m Key.Password
  = index (Data (secretRead (kube_GetSecret (connectionSecret cr) w).1)) Key.Password ∧
  m !! Key.Password ≠ Some [] ∧
  dom m ⊆ connectionKeys.
Proof.
  intros Hrun Hr.
  destruct (getConnectionDetails_readable c cr w m err w' log Hrun Hr)
    as (-> & m0 & -> & Hu & Hpw & Hnonempty & _ & _ & _ & Hdom).
  split; [done|]. unfold index at 1.
  rewrite !fold_addAddress_other by done.
  repeat split; try done. by apply fold_addAddress_dom.
Qed.

End ConnectionDetailsRules.

(** ** Connect *)

Section Connect.
Context `{Clients} {W : Type} `{!World W}.
Import Msg.

(** X14. Connect of the database controller only reads: whatever resource
    and world it is given, it makes at most three calls, none of which
    changes the provider or writes a Kubernetes object, and it returns a
    client exactly when it returns no error. It stops at the first
    failure: when the provider object cannot be read no secret is read,
    and when the secret cannot be read no service is created. The secret
    is looked up in the provider's namespace, the service is created from
    the bytes under the provider's key (the empty credentials when the
    secret has no such key), and the client is bound to the provider's
    project. *)
Theorem cloudsql_connect_outcome (mg : Managed) (w : W) :
  (is_Some (run (cloudsqlConnect mg) w).1.1 ↔ (run (cloudsqlConnect mg) w).1.2 = None) ∧
  count changesProvider (run (cloudsqlConnect mg) w).2.2 = 0%nat ∧
  count isKubeUpdate (run (cloudsqlConnect mg) w).2.2 = 0%nat ∧
  (length (run (cloudsqlConnect mg) w).2.2 ≤ 3)%nat ∧
  (∀ cr, mg = MCloudsql cr →
     let n := NamespacedNameOf (spec_ProviderReference (Spec cr)) in
     (∀ e w1, kube_GetProvider n w = (Err e, w1) →
        run (cloudsqlConnect mg) w
        = (None, Some (ErrWrap e errProviderNotRetrieved), (w1, [CallKubeGetProvider n])))
     ∧
     (∀ provider w1, kube_GetProvider n w = (Ok provider, w1) →
        let name := NamespacedNameOf {| ref_Namespace := provider_Namespace provider;
                                        ref_Name := provider_SecretName provider |} in
        (∀ e w2, kube_GetSecret name w1 = (Err e, w2) →
           run (cloudsqlConnect mg) w
           = (None, Some (ErrWrap e errProviderSecretNotRetrieved),
              (w2, [CallKubeGetProvider n; CallKubeGetSecret name])))
        ∧
        (∀ secret w2, kube_GetSecret name w1 = (Ok secret, w2) →
           (run (cloudsqlConnect mg) w).2.2
           = [CallKubeGetProvider n; CallKubeGetSecret name;
              CallNewSqladmin (index (Data secret) (provider_SecretKey provider))] ∧
           (run (cloudsqlConnect mg) w).1.2
           = Wrap (sqladmin_NewService
                     (index (Data secret) (provider_SecretKey provider)) w2).1
                  errNewSqladmin ∧
           ∀ cl, (run (cloudsqlConnect mg) w).1.1 = Some cl →
                 projectID cl = provider_ProjectID provider))).
Proof.
  assert (∀ cr, let r := run (cloudsqlConnect (MCloudsql cr)) w in
                (is_Some r.1.1 ↔ r.1.2 = None) ∧
                count changesProvider r.2.2 = 0%nat ∧
                count isKubeUpdate r.2.2 = 0%nat ∧ (length r.2.2 ≤ 3)%nat) as Hany.
  { intros cr. unfold cloudsqlConnect. exec.
    destruct (kube_GetProvider _ w) as [[provider|e] w1]; simpl.
    - destruct (kube_GetSecret _ w1) as [[secret|e] w2]; simpl.
      + destruct (sqladmin_NewService _ w2) as [[e|] w3]; simpl;
          repeat split; try lia; try done; try (by intros [? ?]); by eauto.
      + repeat split; try lia; try done; by intros [? ?].
    - repeat split; try lia; try done; by intros [? ?]. }
  destruct mg as [cr|ncr|kind].
  - destruct (Hany cr) as (H1 & H2 & H3 & H4).
    split; [exact H1|]. split; [exact H2|]. split; [exact H3|]. split; [exact H4|].
    intros cr' [= <-] n. subst n. split.
    + intros e w1 Hp. unfold cloudsqlConnect. exec. by rewrite Hp.
    + intros provider w1 Hp name. subst name. split.
      * intros e w2 Hs. unfold cloudsqlConnect. exec. rewrite Hp. simpl.
        by rewrite Hs.
      * intros secret w2 Hs. unfold cloudsqlConnect. exec. rewrite Hp. simpl.
        rewrite Hs. simpl.
        destruct (sqladmin_NewService _ w2) as [[e|] w3]; simpl;
          repeat split; try done. by intros cl [= <-].
  - repeat split; simpl; try lia; try done; by intros [? ?].
  - repeat split; simpl; try lia; try done; by intros [? ?].
Qed.

(** X15. Connect of the network controller refuses a network without a
    name before it looks anything up: it returns the name-not-given error
    and makes no call. In every case it makes at most three calls, none
    of which changes the provider or writes a Kubernetes object, and
    returns a client exactly when it returns no error; an error of the
    credentials helper comes back as it is, an unreadable provider object
    comes back with a message that names the provider, and the client is
    bound to the provider's project. *)
Theorem network_connect_outcome (mg : Managed) (w : W) :
  (is_Some (run (networkConnect mg) w).1.1 ↔ (run (networkConnect mg) w).1.2 = None) ∧
  count changesProvider (run (networkConnect mg) w).2.2 = 0%nat ∧
  count isKubeUpdate (run (networkConnect mg) w).2.2 = 0%nat ∧
  (length (run (networkConnect mg) w).2.2 ≤ 3)%nat ∧
  (∀ ncr, mg = MNetwork ncr →
     let n := NamespacedNameOf (net_ProviderReference ncr) in
     (NetworkName (net_GCPNetworkSpec ncr) = ""%string →
        run (networkConnect mg) w = (None, Some (ErrNew errNameNotGiven), (w, [])))
     ∧
     (NetworkName (net_GCPNetworkSpec ncr) ≠ ""%string →
        (∀ e w1, kube_GetProvider n w = (Err e, w1) →
           run (networkConnect mg) w
           = (None,
              Some (ErrWrap e ("cannot get provider " +:+ NamespacedName_String n)),
              (w1, [CallKubeGetProvider n])))
        ∧
        (∀ provider w1, kube_GetProvider n w = (Ok provider, w1) →
           (∀ e w2, ProviderCredentials provider w1 = (Err e, w2) →
              run (networkConnect mg) w
              = (None, Some e, (w2, [CallKubeGetProvider n; CallProviderCredentials provider])))
           ∧
           (∀ cl, (run (networkConnect mg) w).1.1 = Some cl →
                  net_projectID cl = provider_ProjectID provider)))).
Proof.
  assert (∀ ncr, let r := run (networkConnect (MNetwork ncr)) w in
                 (is_Some r.1.1 ↔ r.1.2 = None) ∧
                 count changesProvider r.2.2 = 0%nat ∧
                 count isKubeUpdate r.2.2 = 0%nat ∧ (length r.2.2 ≤ 3)%nat) as Hany.
  { intros ncr. unfold networkConnect. exec.
    case_bool_decide; simpl; [repeat split; try lia; try done; by intros [? ?]|].
    destruct (kube_GetProvider _ w) as [[provider|e] w1]; simpl.
    - destruct (ProviderCredentials _ w1) as [[creds|e] w2]; simpl.
      + destruct (compute_NewService _ w2) as [[e|] w3]; simpl;
          repeat split; try lia; try done; try (by intros [? ?]); by eauto.
      + repeat split; try lia; try done; by intros [? ?].
    - repeat split; try lia; try done; by intros [? ?]. }
  destruct mg as [cr|ncr|kind].
  - repeat split; simpl; try lia; try done; by intros [? ?].
  - destruct (Hany ncr) as (H1 & H2 & H3 & H4).
    split; [exact H1|]. split; [exact H2|]. split; [exact H3|]. split; [exact H4|].
    intros ncr' [= <-] n. subst n. split.
    + intros Hname. unfold networkConnect. exec. by rewrite bool_decide_eq_true_2.
    + intros Hname. split.
      * intros e w1 Hp. unfold networkConnect. exec.
        rewrite bool_decide_eq_false_2 by done. simpl. by rewrite Hp.
      * intros provider w1 Hp. split.
        -- intros e w2 Hc. unfold networkConnect. exec.
           rewrite bool_decide_eq_false_2 by done. simpl. rewrite Hp. simpl.
           by rewrite Hc.
        -- unfold networkConnect. exec.
           rewrite bool_decide_eq_false_2 by done. simpl. rewrite Hp. simpl.
           destruct (ProviderCredentials _ w1) as [[creds|e] w2]; simpl; [|done].
           destruct (compute_NewService _ w2) as [[e|] w3]; simpl; [done|].
           by intros cl [= <-].
  - repeat split; simpl; try lia; try done; by intros [? ?].
Qed.

(** X16. Observe of the network controller never touches the spec, the
    provider reference or the conditions of the network: on every path
    the record it leaves differs from the one it was given at most in the
    observed status, and it is the record it was given whenever the fetch
    failed. Unlike the database controller it sets no condition. *)
Theorem network_observe_frame (nc : networkExternal) (ncr : Network) (w : W) :
  ∃ ncr', (run (networkObserve nc (MNetwork ncr)) w).1.1.1 = MNetwork ncr' ∧
          net_GCPNetworkSpec ncr' = net_GCPNetworkSpec ncr ∧
          net_ProviderReference ncr' = net_ProviderReference ncr ∧
          net_Conditions ncr' = net_Conditions ncr ∧
          (∀ e w1, net_Get (net_projectID nc) (NetworkName (net_GCPNetworkSpec ncr)) w
                   = (Err e, w1) → ncr' = ncr) ∧
          (∀ observed w1,
             net_Get (net_projectID nc) (NetworkName (net_GCPNetworkSpec ncr)) w
             = (Ok observed, w1) →
             ResourceExists (run (networkObserve nc (MNetwork ncr)) w).1.1.2 = true →
             net_GCPNetworkStatus ncr' = GenerateGCPNetworkStatus observed).
Proof.
  unfold networkObserve. exec.
  destruct (net_Get _ _ w) as [[observed|e] w1]; simpl;
    destruct (clients_IsErrorNotFound _); simpl; eexists;
    (split; [reflexivity|]); repeat split; intros; by simplify_eq.
Qed.

End Connect.

(** * The properties on the in-memory provider *)

Section Evidence.
Import Fake.
Local Open Scope string_scope.

(** Splits a conjunction of closed facts and evaluates each: an equation by
    computing both sides, a disequation by computing them apart. *)
Ltac closed :=
  repeat match goal with |- _ ∧ _ => split end;
  match goal with
  | |- _ ≠ _ => let H := fresh in intros H; vm_compute in H; discriminate H
  | |- _ = _ => reflexivity
  end.

(** A run is the tuple of its parts. *)
Lemma run_parts3 {A B C S L : Type} (r : A * B * C * (S * L)) :
  r = (r.1.1.1, r.1.1.2, r.1.2, (r.2.1, r.2.2)).
Proof. by destruct r as [[[? ?] ?] [? ?]]. Defined.

Lemma run_parts2 {A B S L : Type} (r : A * B * (S * L)) :
  r = (r.1.1, r.1.2, (r.2.1, r.2.2)).
Proof. by destruct r as [[? ?] [? ?]]. Defined.

(** Observe of an instance whose [tier] is unset: the flag is false and the
    late-initialized record is written right after the fetch. *)
Lemma observe_up_to_date_witness :
  (ResourceUpToDate Sample.observe_fresh.1.1.2 = true ↔
   LateInitializeSpec (ForProvider (Spec Sample.fresh)) Sample.creating
   = ForProvider (Spec Sample.fresh))
  ∧ ∃ rest, Sample.observe_fresh.2.2
            = CallDbGet "project" "db"
              :: CallKubeUpdate (lateInitialized Sample.fresh Sample.creating) :: rest.
Proof.
  assert (db_Get (projectID Sample.c) (GetExternalName Sample.fresh)
                 (Sample.hosting Sample.creating)
          = (Ok Sample.creating, Sample.hosting Sample.creating)) as Hget
    by reflexivity.
  pose proof (run_parts3 Sample.observe_fresh) as Hrun.
  unfold Sample.observe_fresh at 1 in Hrun.
  destruct (observe_up_to_date _ _ _ _ _ _ _ _ _ _ Hget Hrun) as (Hflag & Hwrite & _).
  split.
  - apply Hflag. reflexivity.
  - apply Hwrite. apply (bool_decide_unpack _). exact I.
Defined.

(** The network controller reports a network it has fetched as not up to
    date although nothing changed its spec; the database controller
    returns a false flag, with an error, when the connection secret
    cannot be read although late initialization left the spec alone. *)
Lemma observe_up_to_date_counterexample :
  (Sample.observe_network.1.1.1 = MNetwork (set_GCPNetworkStatus Sample.network "net") ∧
   Sample.observe_network.1.2 = None ∧
   ResourceExists Sample.observe_network.1.1.2 = true ∧
   ResourceUpToDate Sample.observe_network.1.1.2 ≠ true)
  ∧
  (Sample.observe_settled_down.1.2
   = Some (ErrWrap Sample.serverError Msg.errConnectionNotRetrieved) ∧
   LateInitializeSpec (ForProvider (Spec Sample.settled)) Sample.runnable
   = ForProvider (Spec Sample.settled) ∧
   ResourceUpToDate Sample.observe_settled_down.1.1.2 ≠ true).
Proof. closed. Qed.

(** A Create that inserts the instance and a second one that is answered
    "already exists" both return no error. *)
Lemma create_already_exists_witness :
  Sample.create_once.1 = (MCloudsql Sample.fresh, None) ∧
  Sample.create_twice.1 = (MCloudsql Sample.fresh, None).
Proof.
  assert (db_Insert (projectID Sample.c)
            (GenerateDatabaseInstance (ForProvider (Spec Sample.fresh))
                                      (GetExternalName Sample.fresh)) Sample.empty
          = (None, Sample.create_once.2.1)) as Hfirst by reflexivity.
  assert (db_Insert (projectID Sample.c)
            (GenerateDatabaseInstance (ForProvider (Spec Sample.fresh))
                                      (GetExternalName Sample.fresh)) Sample.create_once.2.1
          = (Some alreadyExists, Sample.create_once.2.1)) as Hsecond by reflexivity.
  destruct (proj1 (create_already_exists Sample.c Sample.fresh Sample.nc Sample.network
                     Sample.empty None Sample.create_once.2.1
                     (Some alreadyExists) Sample.create_once.2.1)
                  Hfirst (or_intror eq_refl)) as (H1 & _ & H2).
  split; [exact H1 | exact (H2 Hsecond eq_refl)].
Defined.

(** The second Create of a network returns the provider's "already exists"
    error. *)
Lemma create_already_exists_counterexample :
  Sample.create_network_once.1.2 = None ∧
  Sample.create_network_twice.1.2 = Some alreadyExists ∧
  hasCode 409 Sample.create_network_twice.1.2 = true ∧
  Sample.create_network_twice.1.2 ≠ None.
Proof. closed. Qed.

(** A public address followed by a private one, and a public address
    alone. *)
Lemma connection_details_select_addresses_witness :
  (Sample.details Sample.both !! Key.Endpoint = Some (bytes_of "10.0.0.1") ∧
   Sample.details Sample.both !! Key.PrivateIP = Some (bytes_of "10.0.0.1") ∧
   Sample.details Sample.both !! Key.PublicIP = Some (bytes_of "1.2.3.4"))
  ∧
  (Sample.details Sample.only_public !! Key.Endpoint = Some (bytes_of "1.2.3.4") ∧
   Sample.details Sample.only_public !! Key.PublicIP = Some (bytes_of "1.2.3.4") ∧
   Sample.details Sample.only_public !! Key.PrivateIP = None).
Proof.
  split.
  - refine (proj2 (proj1 (connection_details_select_addresses Sample.c Sample.both
              Sample.empty "10.0.0.1" "1.2.3.4" _ _ _ _
              (run_parts2 (run (getConnectionDetails Sample.c Sample.both) Sample.empty))
              eq_refl) _ _ _)).
    + split; [right; left; reflexivity | repeat constructor; discriminate].
    + discriminate.
    + split; [left; reflexivity | repeat constructor; discriminate].
  - refine (proj2 (proj2 (connection_details_select_addresses Sample.c Sample.only_public
              Sample.empty "" "1.2.3.4" _ _ _ _
              (run_parts2 (run (getConnectionDetails Sample.c Sample.only_public)
                               Sample.empty))
              eq_refl) _ _)).
    + repeat constructor; discriminate.
    + split; [left; reflexivity | repeat constructor].
Defined.

(** Of two private addresses the later one is published, not the earlier,
    and likewise of two public addresses; an empty private address loses
    the endpoint to the public one; and when the read of the connection
    secret fails no address is published. *)
Lemma connection_details_select_addresses_counterexample :
  (IPAddresses (AtProvider (Status Sample.two_private))
   = [Sample.private "10.0.0.1"; Sample.private "10.0.0.2"; Sample.public "1.2.3.4"] ∧
   Sample.details Sample.two_private !! Key.PrivateIP = Some (bytes_of "10.0.0.2") ∧
   Sample.details Sample.two_private !! Key.PrivateIP ≠ Some (bytes_of "10.0.0.1") ∧
   Sample.details Sample.two_private !! Key.Endpoint ≠ Some (bytes_of "10.0.0.1"))
  ∧
  (IPAddresses (AtProvider (Status Sample.two_public))
   = [Sample.public "1.2.3.4"; Sample.public "5.6.7.8"; Sample.private "10.0.0.1"] ∧
   Sample.details Sample.two_public !! Key.PublicIP = Some (bytes_of "5.6.7.8") ∧
   Sample.details Sample.two_public !! Key.PublicIP ≠ Some (bytes_of "1.2.3.4"))
  ∧
  (IPAddresses (AtProvider (Status Sample.empty_private))
   = [Sample.private ""; Sample.public "1.2.3.4"] ∧
   Sample.details Sample.empty_private !! Key.PrivateIP = Some (bytes_of "") ∧
   Sample.details Sample.empty_private !! Key.Endpoint = Some (bytes_of "1.2.3.4") ∧
   Sample.details Sample.empty_private !! Key.Endpoint ≠ Some (bytes_of ""))
  ∧
  (IPAddresses (AtProvider (Status Sample.both))
   = [Sample.public "1.2.3.4"; Sample.private "10.0.0.1"] ∧
   Sample.details_down Sample.both !! Key.Endpoint ≠ Some (bytes_of "10.0.0.1")).
Proof. closed. Qed.

(** A rotation that finds the password [secretpw] pushes it and generates
    nothing; a rotation that finds no secret asks for a password from
    twenty random bytes, stages it and pushes it. *)
Lemma rotation_password_witness :
  (Sample.rotate_persisted.2.2
   = [CallUserList "project" "db";
      CallKubeGetSecret {| nn_Namespace := "default"; nn_Name := "conn" |};
      CallUserUpdate "project" "db" "root" "%"
        {| user_Name := "root"; user_Host := "%"; user_Password := "secretpw" |}] ∧
   Sample.rotate_persisted.1.1 !! Key.Password = Some (bytes_of "secretpw"))
  ∧
  (Sample.rotate_new.2.2
   = [CallUserList "project" "db";
      CallKubeGetSecret {| nn_Namespace := "default"; nn_Name := "conn" |};
      CallGeneratePassword 20;
      CallUserUpdate "project" "db" "root" "%"
        {| user_Name := "root"; user_Host := "%";
           user_Password := "eHh4eHh4eHh4eHh4eHh4eHh4eHg=" |}] ∧
   Sample.rotate_new.1.1 !! Key.Password = Some (bytes_of "eHh4eHh4eHh4eHh4eHh4eHh4eHg=") ∧
   (20 ≤ slen "eHh4eHh4eHh4eHh4eHh4eHh4eHg=")%Z).
Proof.
  split.
  - pose proof (run_parts2 Sample.rotate_persisted) as Hrun.
    unfold Sample.rotate_persisted at 1 in Hrun.
    assert (user_List (projectID Sample.c) (GetExternalName Sample.settled)
                      Sample.with_password
            = (Ok [Sample.root], Sample.with_password)) as Hlist by reflexivity.
    assert (find (fun val => bool_decide (user_Name val = DatabaseUserName Sample.settled))
                 [Sample.root] = Some Sample.root) as Hfind by reflexivity.
    assert (kube_GetSecret (connectionSecret Sample.settled) Sample.with_password
            = (Ok (Sample.password_secret "secretpw"), Sample.with_password)) as Hget
      by reflexivity.
    destruct (rotation_password _ _ _ _ _ _ _ _ _ _ _ _ Hlist Hfind Hget I Hrun)
      as (Hreuse & _ & _).
    destruct Hreuse as (Hlog & _ & Hconn); [discriminate|].
    split; [exact Hlog | exact Hconn].
  - pose proof (run_parts2 Sample.rotate_new) as Hrun.
    unfold Sample.rotate_new at 1 in Hrun.
    assert (user_List (projectID Sample.c) (GetExternalName Sample.settled)
                      (Sample.hosting Sample.runnable)
            = (Ok [Sample.root], Sample.hosting Sample.runnable)) as Hlist by reflexivity.
    assert (find (fun val => bool_decide (user_Name val = DatabaseUserName Sample.settled))
                 [Sample.root] = Some Sample.root) as Hfind by reflexivity.
    assert (kube_GetSecret (connectionSecret Sample.settled) (Sample.hosting Sample.runnable)
            = (Err kubeNotFound, Sample.hosting Sample.runnable)) as Hget by reflexivity.
    assert (secretReadable (Err kubeNotFound)) as Hreadable by reflexivity.
    destruct (rotation_password _ _ _ _ _ _ _ _ _ _ _ _ Hlist Hfind Hget Hreadable Hrun)
      as (_ & Hnew & _).
    assert (GeneratePassword PasswordLength (Sample.hosting Sample.runnable)
            = (Ok "eHh4eHh4eHh4eHh4eHh4eHh4eHg=", Sample.hosting Sample.runnable)) as Hgen
      by reflexivity.
    destruct (Hnew eq_refl _ _ Hgen) as (Hlog & Hconn & Hlen).
    split; [exact Hlog|]. split; [exact Hconn|exact Hlen].
Defined.

(** Rotations that stop early although the connection secret holds no
    password: without a root account, with a failing API server and with
    a failing generator no password is pushed. *)
Lemma rotation_password_counterexample :
  (secrets Sample.no_accounts !! "default/conn" = None ∧
   Sample.rotate_no_root.2.2 = [CallUserList "project" "db"] ∧
   count isGeneratePassword Sample.rotate_no_root.2.2 ≠ 1%nat ∧
   count isUserUpdate Sample.rotate_no_root.2.2 ≠ 1%nat)
  ∧
  (Sample.rotate_down.1.2 = Some Sample.serverError ∧
   count isUserUpdate Sample.rotate_down.2.2 ≠ 1%nat)
  ∧
  (Sample.rotate_no_entropy.1.2 = Some Sample.entropyError ∧
   count isGeneratePassword Sample.rotate_no_entropy.2.2 = 1%nat ∧
   count isUserUpdate Sample.rotate_no_entropy.2.2 ≠ 1%nat).
Proof. closed. Qed.

(** Observe of an instance the provider does not hold. *)
Lemma observe_fetch_failure_witness :
  run (cloudsqlObserve Sample.c (MCloudsql Sample.fresh)) Sample.empty
  = (MCloudsql Sample.fresh, ExternalObservation_zero, None,
     (Sample.empty, [CallDbGet "project" "db"]))
  ∧
  run (networkObserve Sample.nc (MNetwork Sample.network))
      (Sample.with_apiError Sample.backendError Sample.empty)
  = (MNetwork Sample.network, ExternalObservation_zero, Some Sample.backendError,
     (Sample.with_apiError Sample.backendError Sample.empty, [CallNetGet "project" "net"])).
Proof.
  split.
  - exact (proj1 (proj1 (observe_fetch_failure Sample.c Sample.fresh Sample.nc
                           Sample.network Sample.empty notFound Sample.empty) eq_refl)
                 eq_refl).
  - exact (proj2 (proj2 (observe_fetch_failure Sample.c Sample.fresh Sample.nc
                           Sample.network
                           (Sample.with_apiError Sample.backendError Sample.empty)
                           Sample.backendError
                           (Sample.with_apiError Sample.backendError Sample.empty))
                        eq_refl)
                 eq_refl).
Defined.

(** Observe of a network while the provider fails: the provider's error
    comes back as it is, not wrapped. *)
Lemma observe_fetch_failure_counterexample :
  Sample.observe_network_down.1.2 = Some Sample.backendError ∧
  hasCode 404 Sample.observe_network_down.1.2 = false ∧
  isWrapped Sample.observe_network_down.1.2 ≠ true.
Proof. closed. Qed.

(** Update of an instance without a root account. *)
Lemma update_rotation_failure_witness :
  run (cloudsqlUpdate Sample.c (MCloudsql Sample.settled)) Sample.no_accounts
  = (MCloudsql Sample.settled, ExternalUpdate_zero,
     Some (ErrWrap (GoogleapiError 404 "user: root is not found") Msg.errUpdateRootFailed),
     (Sample.no_accounts, [CallUserList "project" "db"]))
  ∧ count isDbPatch Sample.rotate_no_root.2.2 = 0%nat.
Proof.
  destruct (update_rotation_failure Sample.c Sample.settled Sample.no_accounts)
    as [Hfail Hmissing].
  split.
  - exact (Hmissing [] Sample.no_accounts eq_refl eq_refl).
  - exact (proj2 (Hfail ∅ (GoogleapiError 404 "user: root is not found")
                        Sample.no_accounts [CallUserList "project" "db"] eq_refl)).
Defined.



(** Delete of an instance and of a network the provider does not hold, and
    Delete while the provider fails. *)
Lemma delete_not_found_witness :
  (run (cloudsqlDelete Sample.c (MCloudsql Sample.fresh)) Sample.empty).1
  = (MCloudsql Sample.fresh, None)
  ∧
  (run (networkDelete Sample.nc (MNetwork Sample.network)) Sample.empty).1
  = (MNetwork Sample.network, None)
  ∧
  (run (cloudsqlDelete Sample.c (MCloudsql Sample.fresh))
       (Sample.with_apiError Sample.backendError Sample.empty)).1
  = (MCloudsql Sample.fresh, Some (ErrWrap Sample.backendError Msg.errDeleteFailed)).
Proof.
  split; [|split].
  - exact (proj1 (proj1 (delete_not_found Sample.c Sample.fresh Sample.nc Sample.network
                           Sample.empty (Some notFound) Sample.empty) eq_refl) eq_refl).
  - exact (proj1 (proj2 (delete_not_found Sample.c Sample.fresh Sample.nc Sample.network
                           Sample.empty (Some notFound) Sample.empty) eq_refl) eq_refl).
  - exact (proj2 (proj1 (delete_not_found Sample.c Sample.fresh Sample.nc Sample.network
                           (Sample.with_apiError Sample.backendError Sample.empty)
                           (Some Sample.backendError)
                           (Sample.with_apiError Sample.backendError Sample.empty))
                        eq_refl)
                 Sample.backendError eq_refl eq_refl).
Defined.

(** A field that is set is kept, a field that is unset is taken from the
    observed state, and a field neither has stays unset. *)
Lemma late_initialization_enriches_witness :
  LateInit.LateInitializeSpec Sample.declared Sample.reported !! "tier" = Some "custom" ∧
  LateInit.LateInitializeSpec Sample.declared Sample.reported !! "region"
  = Some "us-west2" ∧
  LateInit.LateInitializeSpec Sample.declared Sample.reported !! "zone" = None.
Proof.
  split; [|split].
  - apply (proj1 (late_initialization_enriches Sample.declared Sample.reported "tier")).
    reflexivity.
  - apply (proj1 (proj2 (late_initialization_enriches Sample.declared Sample.reported
                           "region"))); reflexivity.
  - apply (proj2 (proj2 (late_initialization_enriches Sample.declared Sample.reported
                           "zone"))); reflexivity.
Defined.

(** A resource of another kind handed to the operations of both
    controllers. *)
Lemma wrong_kind_rejected_witness :
  run (cloudsqlObserve Sample.c (MOther "Bucket")) Sample.empty
  = (MOther "Bucket", ExternalObservation_zero, Some (ErrNew Msg.errNotCloudsql),
     (Sample.empty, []))
  ∧
  run (networkDelete Sample.nc (MCloudsql Sample.fresh)) Sample.empty
  = (MCloudsql Sample.fresh, Some (ErrNew Msg.errNotNetwork), (Sample.empty, [])).
Proof.
  split.
  - refine (proj1 (proj2 (proj1 (wrong_kind_rejected (MOther "Bucket") Sample.c Sample.nc
                                   Sample.empty) _))).
    discriminate.
  - refine (proj2 (proj2 (proj2 (proj2 (proj2 (wrong_kind_rejected (MCloudsql Sample.fresh)
                                   Sample.c Sample.nc Sample.empty) _))))).
    discriminate.
Defined.

(** The scenario of a runnable instance with the public address 1.2.3.4
    and the persisted password [secretpw]: the connection details are the
    user name, that password, and the address as endpoint and as public
    address, and the condition is Available. *)
Example observe_runnable_scenario :
  ∃ cr', (run (cloudsqlObserve Sample.c (MCloudsql Sample.settled)) Sample.with_password).1
         = (MCloudsql cr',
            {| ResourceExists := true; ResourceUpToDate := true;
               obs_ConnectionDetails :=
                 {[ Key.User := bytes_of "root";
                    Key.Password := bytes_of "secretpw";
                    Key.Endpoint := bytes_of "1.2.3.4";
                    Key.PublicIP := bytes_of "1.2.3.4" ]} |},
            None) ∧
         GetCondition TypeReady (Conditions (Status cr')) = Some Available.
Proof. eexists. split; reflexivity. Qed.

(** In the empty world the connection secret is reported not found, which
    counts as readable. *)
Lemma empty_world_readable (cr : CloudsqlInstance) :
  secretReadable (kube_GetSecret (connectionSecret cr) Sample.empty).1.
Proof. reflexivity. Defined.

(** Of two private addresses and of two public addresses the last is
    published. *)
Lemma connection_details_last_address_wins_witness :
  Sample.details Sample.two_private !! Key.PrivateIP = Some (bytes_of "10.0.0.2") ∧
  Sample.details Sample.public_only_twice !! Key.PublicIP = Some (bytes_of "5.6.7.8") ∧
  Sample.details Sample.public_only_twice !! Key.PrivateIP = None.
Proof.
  destruct (connection_details_last_address_wins Sample.c Sample.two_private Sample.empty
              _ _ _ _
              (run_parts2 (run (getConnectionDetails Sample.c Sample.two_private)
                               Sample.empty)) (empty_world_readable _)) as [Hprivate _].
  destruct (connection_details_last_address_wins Sample.c Sample.public_only_twice
              Sample.empty _ _ _ _
              (run_parts2 (run (getConnectionDetails Sample.c Sample.public_only_twice)
                               Sample.empty)) (empty_world_readable _)) as [Hnone Hpublic].
  split; [exact Hprivate|]. split; [exact Hpublic | exact Hnone].
Defined.

(** With two public addresses and no private one the endpoint is the first
    and publicIP the last; with a private address the endpoint is the
    private one. *)
Lemma connection_details_endpoint_rule_witness :
  Sample.details Sample.public_only_twice !! Key.Endpoint = Some (bytes_of "1.2.3.4") ∧
  Sample.details Sample.two_public !! Key.Endpoint = Some (bytes_of "10.0.0.1").
Proof.
  split.
  - refine (proj2 (connection_details_endpoint_rule Sample.c Sample.public_only_twice
              Sample.empty _ _ _ _
              (run_parts2 (run (getConnectionDetails Sample.c Sample.public_only_twice)
                               Sample.empty)) (empty_world_readable _)) _).
    repeat constructor; discriminate.
  - refine (proj1 (connection_details_endpoint_rule Sample.c Sample.two_public
              Sample.empty _ _ _ _
              (run_parts2 (run (getConnectionDetails Sample.c Sample.two_public)
                               Sample.empty)) (empty_world_readable _)) "10.0.0.1" _ _).
    + reflexivity.
    + discriminate.
Defined.

(** The details of an instance without a connection secret: the user name,
    no password, and only connection keys. *)
Lemma connection_details_keys_witness :
  (run (getConnectionDetails Sample.c Sample.both) Sample.empty).1.2 = None ∧
  Sample.details Sample.both !! Key.User = Some (bytes_of "root") ∧
  index (Sample.details Sample.both) Key.Password = [] ∧
  Sample.details Sample.both !! Key.Password ≠ Some [] ∧
  dom (Sample.details Sample.both) ⊆ connectionKeys.
Proof.
  exact (connection_details_keys Sample.c Sample.both Sample.empty _ _ _ _
           (run_parts2 (run (getConnectionDetails Sample.c Sample.both) Sample.empty))
           (empty_world_readable _)).
Defined.

(** Observe of an instance with a complete spec: the observation is in the
    record, its spec and its identity are kept. *)
Lemma observe_record_frame_witness :
  ∃ cr', Sample.observe_settled.1.1.1 = MCloudsql cr' ∧
         AtProvider (Status cr') = GenerateObservation Sample.runnable ∧
         Spec cr' = Spec Sample.settled ∧
         cr_Namespace cr' = "default" ∧
         GetExternalName cr' = "db".
Proof.
  assert (db_Get (projectID Sample.c) (GetExternalName Sample.settled)
                 (Sample.hosting Sample.runnable)
          = (Ok Sample.runnable, Sample.hosting Sample.runnable)) as Hget
    by reflexivity.
  assert (LateInitializeSpec (ForProvider (Spec Sample.settled)) Sample.runnable
          = ForProvider (Spec Sample.settled)) as Hspec by reflexivity.
  pose proof (run_parts3 Sample.observe_settled) as Hrun.
  unfold Sample.observe_settled at 1 in Hrun.
  destruct (observe_record_frame _ _ _ _ _ _ _ _ _ _ Hget Hrun)
    as (cr' & Hmg & _ & _ & _ & _ & Hsame).
  exists cr'. split; [exact Hmg|]. exact (Hsame Hspec).
Defined.

(** Observe of a runnable instance makes an unbound record bindable and
    leaves a bound record bound. *)
Lemma observe_binding_phase_witness :
  (∃ cr', Sample.observe_settled.1.1.1 = MCloudsql cr' ∧
          Phase (Status cr') = BindingPhaseUnbound) ∧
  (∃ cr', Sample.observe_bound.1.1.1 = MCloudsql cr' ∧
          Phase (Status cr') = BindingPhaseBound).
Proof.
  assert (db_Get (projectID Sample.c) (GetExternalName Sample.settled)
                 (Sample.hosting Sample.runnable)
          = (Ok Sample.runnable, Sample.hosting Sample.runnable)) as Hget
    by reflexivity.
  assert (LateInitializeSpec (ForProvider (Spec Sample.settled)) Sample.runnable
          = ForProvider (Spec Sample.settled)) as Hspec by reflexivity.
  split.
  - assert (State (AtProvider (Status (afterWriteBack Sample.settled Sample.runnable
                                         (Sample.hosting Sample.runnable))))
            = StateRunnable) as Hstate by reflexivity.
    pose proof (run_parts3 Sample.observe_settled) as Hrun.
    unfold Sample.observe_settled at 1 in Hrun.
    destruct (observe_binding_phase _ _ _ _ _ _ _ _ _ _ Hget Hrun)
      as (cr' & Hmg & Hrunnable & _).
    exists cr'. split; [exact Hmg|]. exact (Hrunnable Hstate (or_introl Hspec)).
  - assert (State (AtProvider (Status (afterWriteBack Sample.bound Sample.runnable
                                         (Sample.hosting Sample.runnable))))
            = StateRunnable) as Hstate by reflexivity.
    pose proof (run_parts3 Sample.observe_bound) as Hrun.
    unfold Sample.observe_bound at 1 in Hrun.
    destruct (observe_binding_phase Sample.c Sample.bound _ _ _ _ _ _ _ _ Hget Hrun)
      as (cr' & Hmg & Hrunnable & _).
    exists cr'. split; [exact Hmg|]. exact (Hrunnable Hstate (or_introl Hspec)).
Defined.

(** Observe of a runnable instance while the API server fails: the read of
    the connection secret fails, the error comes back wrapped and the
    observation is the zero one, yet the record already holds Available.
    And Observe after a write-back that the API server answers with a
    stored Runnable status: the details are derived from the addresses of
    the answer. *)
Lemma observe_runnable_composes_witness :
  (Sample.observe_settled_down.1.2
   = Some (ErrWrap Sample.serverError Msg.errConnectionNotRetrieved) ∧
   Sample.observe_settled_down.1.1.2 = ExternalObservation_zero ∧
   Sample.observe_settled_down.1.1.1
   = MCloudsql (madeAvailable (lateInitialized Sample.settled Sample.runnable)) ∧
   GetCondition TypeReady
     (Conditions (Status (madeAvailable (lateInitialized Sample.settled Sample.runnable))))
   = Some Available)
  ∧
  (Sample.observe_fresh_again.1.2 = None ∧
   ResourceExists Sample.observe_fresh_again.1.1.2 = true ∧
   ResourceUpToDate Sample.observe_fresh_again.1.1.2 = false ∧
   obs_ConnectionDetails Sample.observe_fresh_again.1.1.2
   = Sample.details (Sample.cloudsql ∅ (Sample.addresses [Sample.public "1.2.3.4"]))).
Proof.
  split.
  - assert (db_Get (projectID Sample.c) (GetExternalName Sample.settled)
                   (Sample.with_kubeError Sample.serverError
                      (Sample.hosting Sample.runnable))
            = (Ok Sample.runnable,
               Sample.with_kubeError Sample.serverError (Sample.hosting Sample.runnable)))
      as Hget by reflexivity.
    assert (run (getConnectionDetails Sample.c
                   (madeAvailable
                      (afterWriteBack Sample.settled Sample.runnable
                         (Sample.with_kubeError Sample.serverError
                            (Sample.hosting Sample.runnable)))))
                (Sample.with_kubeError Sample.serverError (Sample.hosting Sample.runnable))
            = (∅, Some Sample.serverError,
               (Sample.with_kubeError Sample.serverError (Sample.hosting Sample.runnable),
                [CallKubeGetSecret {| nn_Namespace := "default"; nn_Name := "conn" |}])))
      as Hconn by reflexivity.
    assert (State (AtProvider (Status
                     (afterWriteBack Sample.settled Sample.runnable
                        (Sample.with_kubeError Sample.serverError
                           (Sample.hosting Sample.runnable)))))
            = StateRunnable) as Hstate
      by reflexivity.
    assert (LateInitializeSpec (ForProvider (Spec Sample.settled)) Sample.runnable
            = ForProvider (Spec Sample.settled)) as Hspec by reflexivity.
    destruct (observe_runnable_composes Sample.c Sample.settled _ Sample.runnable
                _ _ _ _ _ _
                Hget (or_introl (conj Hspec eq_refl)) Hstate Hconn)
      as (obs & log & Hrun & Hcond & _ & Hzero).
    unfold Sample.observe_settled_down. rewrite Hrun. simpl.
    split; [reflexivity|]. split; [apply Hzero; discriminate|]. split; [reflexivity|].
    exact Hcond.
  - assert (db_Get (projectID Sample.c) (GetExternalName Sample.fresh)
                   Sample.observed_before
            = (Ok Sample.runnable, Sample.observed_before)) as Hget by reflexivity.
    assert (LateInitializeSpec (ForProvider (Spec Sample.fresh)) Sample.runnable
            ≠ ForProvider (Spec Sample.fresh)) as Hspec
      by (apply (bool_decide_unpack _); exact I).
    assert ((kube_Update (lateInitialized Sample.fresh Sample.runnable)
                         Sample.observed_before).1.2 = None) as Hwrite by reflexivity.
    assert (State (AtProvider (Status (afterWriteBack Sample.fresh Sample.runnable
                                         Sample.observed_before)))
            = StateRunnable) as Hstate by reflexivity.
    pose proof (run_parts2
                  (run (getConnectionDetails Sample.c
                          (madeAvailable (afterWriteBack Sample.fresh Sample.runnable
                                            Sample.observed_before)))
                       (kube_Update (lateInitialized Sample.fresh Sample.runnable)
                                    Sample.observed_before).2)) as Hconn.
    destruct (observe_runnable_composes Sample.c Sample.fresh _ Sample.runnable
                _ _ _ _ _ _
                Hget (or_intror (conj Hspec (conj Hwrite eq_refl))) Hstate Hconn)
      as (obs & log & Hrun & _ & Hdetails & _).
    unfold Sample.observe_fresh_again. rewrite Hrun. simpl.
    split; [reflexivity|]. rewrite Hdetails by reflexivity.
    split; [reflexivity|]. split; reflexivity.
Defined.

(** Update of an instance with a persisted password: the push, then the
    patch, and the connection details of the rotation come back. *)
Lemma update_patches_after_rotation_witness :
  Sample.update_settled.1.2 = None ∧
  upd_ConnectionDetails Sample.update_settled.1.1.2 = Sample.rotate_persisted.1.1 ∧
  Sample.update_settled.2.2
  = (Sample.rotate_persisted.2.2
     ++ [CallDbPatch "project" "db"
           (GenerateDatabaseInstance (ForProvider (Spec Sample.settled)) "db")])%list ∧
  count isUserUpdate Sample.rotate_persisted.2.2 = 1%nat.
Proof.
  assert (run (updateRootCredentials Sample.c Sample.settled) Sample.with_password
          = (Sample.rotate_persisted.1.1, None,
             (Sample.rotate_persisted.2.1, Sample.rotate_persisted.2.2))) as Hrot
    by reflexivity.
  assert (db_Patch (projectID Sample.c) (GetExternalName Sample.settled)
            (GenerateDatabaseInstance (ForProvider (Spec Sample.settled))
                                      (GetExternalName Sample.settled))
            Sample.rotate_persisted.2.1
          = (None, Sample.update_settled.2.1)) as Hpatch by reflexivity.
  destruct (update_patches_after_rotation _ _ _ _ _ _ _ _ Hrot Hpatch)
    as (Hrun & _ & Hpush).
  unfold Sample.update_settled. rewrite Hrun. simpl.
  split; [reflexivity|]. split; [reflexivity|]. split; [reflexivity|exact Hpush].
Defined.

(** The rotation that generates a password publishes the password it
    pushes. *)
Lemma rotation_pushes_published_password_witness :
  bytes_of "eHh4eHh4eHh4eHh4eHh4eHh4eHg=" = index Sample.rotate_new.1.1 Key.Password.
Proof.
  pose proof (run_parts2 Sample.rotate_new) as Hrun.
  unfold Sample.rotate_new at 1 in Hrun.
  refine (proj1 (rotation_pushes_published_password Sample.c Sample.settled _ _ _ _ _
                   "project" "db" "root" "%"
                   {| user_Name := "root"; user_Host := "%";
                      user_Password := "eHh4eHh4eHh4eHh4eHh4eHh4eHg=" |} Hrun _)).
  right. right. right. left. reflexivity.
Defined.

(** Once the details of the generating rotation are stored as the secret,
    the next rotation pushes the same password and generates nothing. *)
Lemma rotation_reuses_pushed_password_witness :
  Sample.rotate_again.2.2
  = [CallUserList "project" "db";
     CallKubeGetSecret {| nn_Namespace := "default"; nn_Name := "conn" |};
     CallUserUpdate "project" "db" "root" "%"
       {| user_Name := "root"; user_Host := "%";
          user_Password := "eHh4eHh4eHh4eHh4eHh4eHh4eHg=" |}] ∧
  index Sample.rotate_again.1.1 Key.Password = index Sample.rotate_new.1.1 Key.Password ∧
  count isGeneratePassword Sample.rotate_again.2.2 = 0%nat.
Proof.
  pose proof (run_parts2 Sample.rotate_new) as Hrun1.
  unfold Sample.rotate_new at 1 in Hrun1.
  pose proof (run_parts2 Sample.rotate_again) as Hrun2.
  unfold Sample.rotate_again at 1 in Hrun2.
  assert (In (CallUserUpdate "project" "db" "root" "%"
                {| user_Name := "root"; user_Host := "%";
                   user_Password := "eHh4eHh4eHh4eHh4eHh4eHh4eHg=" |})
             Sample.rotate_new.2.2) as Hin
    by (right; right; right; left; reflexivity).
  assert (user_List (projectID Sample.c) (GetExternalName Sample.settled)
                    Sample.persisted_after_rotation
          = (Ok (users Sample.persisted_after_rotation), Sample.persisted_after_rotation))
    as Hlist by reflexivity.
  assert (find (fun val => bool_decide (user_Name val = DatabaseUserName Sample.settled))
               (users Sample.persisted_after_rotation)
          = Some {| user_Name := "root"; user_Host := "%";
                    user_Password := "eHh4eHh4eHh4eHh4eHh4eHh4eHg=" |}) as Hfind
    by reflexivity.
  assert (∀ us v1,
            user_List (projectID Sample.c) (GetExternalName Sample.settled)
                      Sample.persisted_after_rotation = (Ok us, v1) →
            secretReadable (kube_GetSecret (connectionSecret Sample.settled) v1).1 ∧
            index (Data (secretRead
                           (kube_GetSecret (connectionSecret Sample.settled) v1).1))
                  Key.Password
            = index Sample.rotate_new.1.1 Key.Password) as Hsecret.
  { intros us v1 Hl.
    assert (v1 = Sample.persisted_after_rotation) as ->
      by exact (eq_sym (f_equal snd Hl)).
    split; reflexivity. }
  assert ("eHh4eHh4eHh4eHh4eHh4eHh4eHg=" ≠ ""%string) as Hne by discriminate.
  destruct (rotation_reuses_pushed_password _ _ _ _ _ _ _ _ _ _ _ _ _ _ _ _ _
              Hrun1 Hin Hne Hsecret Hrun2) as (Hnone & _ & Hfound).
  destruct (Hfound _ _ _ Hlist Hfind) as [Hlog Hpw].
  split; [exact Hlog|]. split; [exact Hpw | exact Hnone].
Defined.

(** With an administrator and two root accounts the first root account is
    the one updated. *)
Lemma rotation_targets_first_match_witness :
  In (CallUserUpdate "project" "db" "root" "%"
        {| user_Name := "root"; user_Host := "%";
           user_Password := "eHh4eHh4eHh4eHh4eHh4eHh4eHg=" |})
     Sample.rotate_several.2.2 ∧
  "%"%string = user_Host Sample.root ∧
  user_Host Sample.root ≠ user_Host Sample.local_root.
Proof.
  pose proof (run_parts2 Sample.rotate_several) as Hrun.
  unfold Sample.rotate_several at 1 in Hrun.
  assert (In (CallUserUpdate "project" "db" "root" "%"
                {| user_Name := "root"; user_Host := "%";
                   user_Password := "eHh4eHh4eHh4eHh4eHh4eHh4eHg=" |})
             Sample.rotate_several.2.2) as Hin
    by (right; right; right; left; reflexivity).
  assert (user_List (projectID Sample.c) (GetExternalName Sample.settled)
                    Sample.several_accounts
          = (Ok ([Sample.admin] ++ Sample.root :: [Sample.local_root])%list,
             Sample.several_accounts)) as Hlist by reflexivity.
  assert (user_Name Sample.root = DatabaseUserName Sample.settled) as Hname
    by reflexivity.
  assert (Forall (fun val => user_Name val ≠ DatabaseUserName Sample.settled)
                 [Sample.admin]) as Hbefore
    by (repeat constructor; discriminate).
  destruct (rotation_targets_first_match _ _ _ _ _ _ _ _ _ _ _ _ _ _ _ _
              Hlist Hbefore Hname Hrun Hin) as (_ & Hhost & _ & _).
  split; [exact Hin|]. split; [exact Hhost|discriminate].
Defined.

(** Create on a provider that already holds the instance succeeds, and a
    Delete the provider refuses comes back wrapped. *)
Lemma database_create_delete_outcome_witness :
  (∃ err,
     run (cloudsqlCreate Sample.c (MCloudsql Sample.fresh)) (Sample.hosting Sample.creating)
     = (MCloudsql Sample.fresh, err,
        (Sample.hosting Sample.creating,
         [CallDbInsert (projectID Sample.c)
            (GenerateDatabaseInstance (ForProvider (Spec Sample.fresh))
                                      (GetExternalName Sample.fresh))])) ∧
     err = None)
  ∧
  (∃ err,
     run (cloudsqlDelete Sample.c (MCloudsql Sample.fresh))
         (Sample.with_apiError Sample.backendError Sample.empty)
     = (MCloudsql Sample.fresh, err,
        (Sample.with_apiError Sample.backendError Sample.empty,
         [CallDbDelete (projectID Sample.c) (GetExternalName Sample.fresh)])) ∧
     err ≠ None ∧
     (∀ x, err = Some x → x = ErrWrap Sample.backendError Msg.errDeleteFailed)).
Proof.
  split.
  - assert (db_Insert (projectID Sample.c)
              (GenerateDatabaseInstance (ForProvider (Spec Sample.fresh))
                                        (GetExternalName Sample.fresh))
              (Sample.hosting Sample.creating)
            = (Some alreadyExists, Sample.hosting Sample.creating)) as Hcall
      by reflexivity.
    destruct (proj1 (database_create_delete_outcome _ _ _ _ _) Hcall)
      as (err & Hrun & Hnone & _).
    exists err. split; [exact Hrun|]. apply Hnone. right. reflexivity.
  - assert (db_Delete (projectID Sample.c) (GetExternalName Sample.fresh)
              (Sample.with_apiError Sample.backendError Sample.empty)
            = (Some Sample.backendError,
               Sample.with_apiError Sample.backendError Sample.empty)) as Hcall
      by reflexivity.
    destruct (proj2 (database_create_delete_outcome _ _ _ _ _) Hcall)
      as (err & Hrun & Hnone & Hwrap).
    exists err. split; [exact Hrun|]. split.
    + intros Herr. destruct (proj1 Hnone Herr) as [Hno|Hnf]; discriminate.
    + intros x Hx. destruct (Hwrap x Hx) as (y & Hy & ->). by injection Hy as ->.
Defined.

(** The network [net] is created on an empty provider, cannot be patched
    there, and its Delete there succeeds. *)
Lemma network_write_outcome_witness :
  run (networkCreate Sample.nc (MNetwork Sample.network)) Sample.empty
  = (MNetwork Sample.network, None,
     (Sample.networked,
      [CallNetInsert (net_projectID Sample.nc)
         (GenerateNetwork (net_GCPNetworkSpec Sample.network))]))
  ∧
  run (networkUpdate Sample.nc (MNetwork Sample.network)) Sample.empty
  = (MNetwork Sample.network, ExternalUpdate_zero, Some notFound,
     (Sample.empty,
      [CallNetPatch (net_projectID Sample.nc)
         (NetworkName (net_GCPNetworkSpec Sample.network))
         (GenerateNetwork (net_GCPNetworkSpec Sample.network))]))
  ∧
  (∃ err,
     run (networkDelete Sample.nc (MNetwork Sample.network)) Sample.empty
     = (MNetwork Sample.network, err,
        (Sample.empty,
         [CallNetDelete (net_projectID Sample.nc)
            (NetworkName (net_GCPNetworkSpec Sample.network))])) ∧
     err = None).
Proof.
  assert (net_Insert (net_projectID Sample.nc)
            (GenerateNetwork (net_GCPNetworkSpec Sample.network)) Sample.empty
          = (None, Sample.networked)) as Hinsert by reflexivity.
  assert (net_Patch (net_projectID Sample.nc)
            (NetworkName (net_GCPNetworkSpec Sample.network))
            (GenerateNetwork (net_GCPNetworkSpec Sample.network)) Sample.empty
          = (Some notFound, Sample.empty)) as Hpatch by reflexivity.
  assert (net_Delete (net_projectID Sample.nc)
            (NetworkName (net_GCPNetworkSpec Sample.network)) Sample.empty
          = (Some notFound, Sample.empty)) as Hdelete by reflexivity.
  split; [|split].
  - exact (proj1 (network_write_outcome _ _ _ _ _) Hinsert).
  - exact (proj1 (proj2 (network_write_outcome _ _ _ _ _)) Hpatch).
  - destruct (proj2 (proj2 (network_write_outcome _ _ _ _ _)) Hdelete)
      as (err & Hrun & Hnone & _).
    exists err. split; [exact Hrun|]. apply Hnone. right. reflexivity.
Defined.

(** Connect with a provider object and its secret makes the three reads
    and returns a client; without the provider object it stops after the
    first. *)
Lemma cloudsql_connect_outcome_witness :
  (is_Some Sample.connect_cloudsql.1.1 ∧
   Sample.connect_cloudsql.2.2
   = [CallKubeGetProvider
        (NamespacedNameOf (spec_ProviderReference (Spec Sample.settled)));
      CallKubeGetSecret
        (NamespacedNameOf
           {| ref_Namespace := provider_Namespace Sample.gcp_provider;
              ref_Name := provider_SecretName Sample.gcp_provider |});
      CallNewSqladmin
        (index (Data Sample.credentials) (provider_SecretKey Sample.gcp_provider))])
  ∧
  run (cloudsqlConnect (MCloudsql Sample.settled)) Sample.empty
  = (None, Some (ErrWrap kubeNotFound Msg.errProviderNotRetrieved),
     (Sample.empty,
      [CallKubeGetProvider
         (NamespacedNameOf (spec_ProviderReference (Spec Sample.settled)))])).
Proof.
  split.
  - destruct (cloudsql_connect_outcome (MCloudsql Sample.settled) Sample.configured)
      as (Hclient & _ & _ & _ & Hpaths).
    assert (kube_GetProvider
              (NamespacedNameOf (spec_ProviderReference (Spec Sample.settled)))
              Sample.configured
            = (Ok Sample.gcp_provider, Sample.configured)) as Hp by reflexivity.
    assert (kube_GetSecret
              (NamespacedNameOf
                 {| ref_Namespace := provider_Namespace Sample.gcp_provider;
                    ref_Name := provider_SecretName Sample.gcp_provider |})
              Sample.configured
            = (Ok Sample.credentials, Sample.configured)) as Hs by reflexivity.
    destruct (proj2 (proj2 (Hpaths Sample.settled eq_refl) _ _ Hp) _ _ Hs)
      as (Hlog & Herr & _).
    split; [|exact Hlog]. apply Hclient. rewrite Herr. reflexivity.
  - destruct (cloudsql_connect_outcome (MCloudsql Sample.settled) Sample.empty)
      as (_ & _ & _ & _ & Hpaths).
    assert (kube_GetProvider
              (NamespacedNameOf (spec_ProviderReference (Spec Sample.settled)))
              Sample.empty
            = (Err kubeNotFound, Sample.empty)) as Hp by reflexivity.
    exact (proj1 (Hpaths Sample.settled eq_refl) _ _ Hp).
Defined.

(** A network without a name is refused before any lookup; a named one
    whose provider object is missing fails with a message that names the
    provider object. *)
Lemma network_connect_outcome_witness :
  run (networkConnect (MNetwork Sample.unnamed)) Sample.configured
  = (None, Some (ErrNew Msg.errNameNotGiven), (Sample.configured, []))
  ∧
  run (networkConnect (MNetwork Sample.network)) Sample.empty
  = (None,
     Some (ErrWrap kubeNotFound
             ("cannot get provider "
              +:+ NamespacedName_String
                    (NamespacedNameOf (net_ProviderReference Sample.network)))),
     (Sample.empty,
      [CallKubeGetProvider (NamespacedNameOf (net_ProviderReference Sample.network))]))
  ∧
  is_Some Sample.connect_network.1.1.
Proof.
  split; [|split].
  - destruct (network_connect_outcome (MNetwork Sample.unnamed) Sample.configured)
      as (_ & _ & _ & _ & Hpaths).
    exact (proj1 (Hpaths Sample.unnamed eq_refl) eq_refl).
  - destruct (network_connect_outcome (MNetwork Sample.network) Sample.empty)
      as (_ & _ & _ & _ & Hpaths).
    assert (NetworkName (net_GCPNetworkSpec Sample.network) ≠ "") as Hname
      by discriminate.
    assert (kube_GetProvider
              (NamespacedNameOf (net_ProviderReference Sample.network)) Sample.empty
            = (Err kubeNotFound, Sample.empty)) as Hp by reflexivity.
    exact (proj1 (proj2 (Hpaths Sample.network eq_refl) Hname) _ _ Hp).
  - destruct (network_connect_outcome (MNetwork Sample.network) Sample.configured)
      as (Hclient & _).
    apply Hclient. reflexivity.
Defined.

(** Observe of a network the provider holds records the observed status
    and keeps the spec. *)
Lemma network_observe_frame_witness :
  ∃ ncr',
    (run (networkObserve Sample.nc (MNetwork Sample.network)) Sample.networked).1.1.1
    = MNetwork ncr' ∧
    net_GCPNetworkSpec ncr' = net_GCPNetworkSpec Sample.network ∧
    net_GCPNetworkStatus ncr' = GenerateGCPNetworkStatus "net".
Proof.
  destruct (network_observe_frame Sample.nc Sample.network Sample.networked)
    as (ncr' & Hrun & Hspec & _ & _ & _ & Hstatus).
  assert (net_Get (net_projectID Sample.nc)
            (NetworkName (net_GCPNetworkSpec Sample.network)) Sample.networked
          = (Ok "net", Sample.networked)) as Hget by reflexivity.
  assert (ResourceExists
            (run (networkObserve Sample.nc (MNetwork Sample.network))
                 Sample.networked).1.1.2 = true) as Hexists by reflexivity.
  exists ncr'. split; [exact Hrun|]. split; [exact Hspec|].
  exact (Hstatus _ _ Hget Hexists).
Defined.

End Evidence.
